(** * Embeddings service: the model wrapper and the HTTP facade

    A shallow embedding of [app/models.py] and [app/main.py] of the
    embeddings service.  The service wraps a pre-trained sentence
    embedding model of the sentence-transformers library and serves it
    through three FastAPI routes.

    The two source files are embedded in the modules [models] and
    [main].  Python code that threads the global [_model_instance],
    the log and exceptions is written in a state-and-exception monad
    [M] over a [World].  The libraries the service calls
    (sentence-transformers, torch, numpy) are not part of the
    repository: they are the interface [Lib], and every theorem holds
    for each implementation of it; what a theorem needs from the
    library's documented behaviour is an explicit premise.  What the
    specification says of the pre-trained model itself is the library
    [Spec.lib], modelled from the specification. *)

From Stdlib Require Import String List ZArith Lia Bool DecimalString.
Import ListNotations.
Open Scope string_scope.

(** ** The libraries the service is linked against *)

(** What a library call can raise: an exception with its message
    ([str(e)]).  The libraries know nothing of FastAPI, they never
    raise its [HTTPException]. *)
Definition lib_result (A : Type) : Type := (string + A)%type.

Class Lib : Type := {
  (** a loaded [SentenceTransformer] object *)
  SentenceTransformer : Type;
  (** numpy's float32 scalar and Python's float *)
  np_float32 : Type;
  py_float : Type;
  (** the Python scalar [ndarray.tolist] gives for an array element *)
  item : np_float32 -> py_float;
  (** [torch.cuda.is_available()], as answered during the construction
      of object number [n] *)
  cuda_is_available : nat -> bool;
  (** [SentenceTransformer(model_name, device=device)] during the
      construction of object number [n]: loading may fail *)
  load : nat -> string -> string -> lib_result SentenceTransformer;
  (** [model.encode(text, convert_to_numpy=True)] on one string: a
      one-dimensional array.  The result is taken as given by the
      loaded model and the input; whether real inference repeats its
      floating-point result bit for bit is not expressed by this
      interface, and no theorem rests on it. *)
  encode_str : SentenceTransformer -> string -> lib_result (list np_float32);
  (** [model.encode(texts, convert_to_numpy=True, show_progress_bar=False)]
      on a list of strings: the rows a loop over the result visits *)
  encode_list :
    SentenceTransformer -> list string -> lib_result (list (list np_float32));
  (** [model.get_sentence_embedding_dimension()] *)
  get_sentence_embedding_dimension : SentenceTransformer -> Z;
  (** [str(e)] of a FastAPI [HTTPException(status_code, detail)] *)
  str_HTTPException : Z -> string -> string
}.

(** ** Python values *)

(** [ndarray.tolist()] of a one-dimensional array. *)
Definition tolist {L : Lib} (a : list np_float32) : list py_float :=
  map item a.

(** [str(n)] of an int, as an f-string prints it. *)
Definition str_nat (n : nat) : string := NilZero.string_of_uint (Nat.to_uint n).
Definition str_int (z : Z) : string := NilZero.string_of_int (Z.to_int z).

(** [len(s)] of a str and of a list.  A text is the sequence of its
    characters, one [ascii] each; encodings of characters in several
    bytes are not modelled. *)
Definition len_str (s : string) : nat := String.length s.
Definition len {A : Type} (l : list A) : nat := List.length l.

(** Exceptions that travel through the service's own code. *)
Inductive exn : Type :=
| HTTPException (status_code : Z) (detail : string)
| Exception (message : string).

Definition str_exn {L : Lib} (e : exn) : string :=
  match e with
  | HTTPException status detail => str_HTTPException status detail
  | Exception message => message
  end.

(** ** The process state *)

(** What is passed to [encode]. *)
Inductive sentences : Type :=
| OneText (text : string)
| ManyTexts (texts : list string).

Inductive level : Type := INFO | ERROR.

(** The observable steps of the process, in the order they happen:
    log records and calls into the library. *)
Inductive event : Type :=
| Log (lvl : level) (msg : string)
| CallLoad (model_name device : string)
| Created (oid : nat)
| CallEncode (oid : nat) (input : sentences).

Section World.
Context {L : Lib}.

(** An [EmbeddingModel] object; [oid] is the object's identity
    (Python's [is]). *)
Record EmbeddingModel : Type := {
  oid : nat;
  model_name : string;
  device : string;
  model : SentenceTransformer
}.

Record World : Type := {
  (** the module global [_model_instance] of models.py *)
  _model_instance : option EmbeddingModel;
  (** number of [EmbeddingModel] objects allocated so far *)
  next_oid : nat;
  trace : list event
}.

Definition emit (e : event) (w : World) : World :=
  {| _model_instance := _model_instance w;
     next_oid := next_oid w;
     trace := trace w ++ [e] |}.

(** Process start: models.py has run [_model_instance = None]. *)
Definition initial : World :=
  {| _model_instance := None; next_oid := 0; trace := [] |}.

(** *** State and exceptions *)

Definition M (A : Type) : Type := World -> (exn + A) * World.

Definition ret {A} (a : A) : M A := fun w => (inr a, w).

Definition bind {A B} (c : M A) (k : A -> M B) : M B :=
  fun w =>
    match c w with
    | (inl e, w') => (inl e, w')
    | (inr a, w') => k a w'
    end.

Definition raise {A} (e : exn) : M A := fun w => (inl e, w).

(** [try: c  except ... as e: h e] *)
Definition try_except {A} (c : M A) (h : exn -> M A) : M A :=
  fun w =>
    match c w with
    | (inl e, w') => h e w'
    | (inr a, w') => (inr a, w')
    end.

Definition tell (e : event) : M unit := fun w => (inr tt, emit e w).

(** A library call: its failure is a Python [Exception]. *)
Definition call {A} (r : lib_result A) : M A :=
  match r with
  | inl message => raise (Exception message)
  | inr a => ret a
  end.

Definition logger_info (msg : string) : M unit := tell (Log INFO msg).
Definition logger_error (msg : string) : M unit := tell (Log ERROR msg).
End World.

Declare Scope py_scope.
Delimit Scope py_scope with py.
Notation "x <- c ;; k" := (bind c (fun x => k))
  (at level 61, c at next level, right associativity) : py_scope.
Notation "c ;; k" := (bind c (fun _ => k))
  (at level 61, right associativity) : py_scope.
Open Scope py_scope.

(** ** app/models.py *)

Module models.
Section models.
Context {L : Lib}.

(** Allocation of a fresh object: its identity. *)
Definition new_object : M nat :=
  fun w =>
    (inr (next_oid w),
     {| _model_instance := _model_instance w;
        next_oid := S (next_oid w);
        trace := trace w |}).

(** [EmbeddingModel(model_name)]: allocation, then [__init__].  The
    parameter is [None] where the caller leaves the default
    ["all-MiniLM-L6-v2"]. *)
Definition new_EmbeddingModel (model_name : option string)
  : M EmbeddingModel :=
  let model_name :=
    match model_name with
    | Some name => name
    | None => "all-MiniLM-L6-v2"
    end in
  self <- new_object ;;
  let device := if cuda_is_available self then "cuda" else "cpu" in
  logger_info ("Loading model " ++ model_name ++ " on device " ++ device) ;;
  tell (CallLoad model_name device) ;;
  model <- call (load self model_name device) ;;
  logger_info ("Model loaded successfully. Embedding dimension: "
               ++ str_int (get_sentence_embedding_dimension model)) ;;
  tell (Created self) ;;
  ret {| oid := self;
         model_name := model_name;
         device := device;
         model := model |}.

(** [EmbeddingModel.generate_embedding] *)
Definition generate_embedding (self : EmbeddingModel) (text : string)
  : M (list py_float) :=
  tell (CallEncode (oid self) (OneText text)) ;;
  embedding <- call (encode_str (model self) text) ;;
  ret (tolist embedding).

(** [EmbeddingModel.generate_embeddings_batch]; the result is the
    comprehension [[emb.tolist() for emb in embeddings]]. *)
Definition generate_embeddings_batch (self : EmbeddingModel)
    (texts : list string) : M (list (list py_float)) :=
  tell (CallEncode (oid self) (ManyTexts texts)) ;;
  embeddings <- call (encode_list (model self) texts) ;;
  ret (map tolist embeddings).

(** [EmbeddingModel.get_dimension] *)
Definition get_dimension (self : EmbeddingModel) : Z :=
  get_sentence_embedding_dimension (model self).

Definition set_model_instance (m : EmbeddingModel) : M unit :=
  fun w =>
    (inr tt,
     {| _model_instance := Some m;
        next_oid := next_oid w;
        trace := trace w |}).

(** [get_model]: get or create the global model instance. *)
Definition get_model : M EmbeddingModel :=
  fun w =>
    match _model_instance w with
    | None =>
        (m <- new_EmbeddingModel None ;;
         set_model_instance m ;;
         ret m) w
    | Some m => ret m w
    end.
End models.
End models.

(** ** app/main.py *)

Module main.

(** *** Request and response models *)

(** A JSON body as it arrives, before the schema is applied: each
    field is absent or present.  Bodies whose fields have another JSON
    type than the schema's are not modelled. *)
Module GenerateBody.
Record t : Type := { text : option string; model : option string }.
End GenerateBody.

Module BatchBody.
Record t : Type := { texts : option (list string); model : option string }.
End BatchBody.

Module EmbeddingRequest.
Record t : Type := { text : string; model : string }.
End EmbeddingRequest.

Module BatchEmbeddingRequest.
Record t : Type := { texts : list string; model : string }.
End BatchEmbeddingRequest.

Module EmbeddingResponse.
Record t {L : Lib} : Type :=
  { embedding : list py_float; model : string; dimension : Z }.
End EmbeddingResponse.

Module BatchEmbeddingResponse.
Record t {L : Lib} : Type :=
  { embeddings : list (list py_float);
    model : string;
    dimension : Z;
    count : nat }.
End BatchEmbeddingResponse.

Module HealthResponse.
Record t : Type :=
  { status : string; model : string; device : string; dimension : Z }.
End HealthResponse.

(** [EmbeddingRequest] as the schema layer builds it from a body:
    [text] is required ([Field(...)]) with [min_length=1], [model]
    defaults to ["all-MiniLM-L6-v2"].  [None] is a validation error. *)
Definition parse_EmbeddingRequest (body : GenerateBody.t)
  : option EmbeddingRequest.t :=
  match GenerateBody.text body with
  | None => None
  | Some text =>
      if (len_str text <? 1)%nat then None
      else
        Some {| EmbeddingRequest.text := text;
                EmbeddingRequest.model :=
                  match GenerateBody.model body with
                  | Some model => model
                  | None => "all-MiniLM-L6-v2"
                  end |}
  end.

(** [BatchEmbeddingRequest]: [texts] is required with [min_items=1],
    [model] defaults to ["all-MiniLM-L6-v2"]. *)
Definition parse_BatchEmbeddingRequest (body : BatchBody.t)
  : option BatchEmbeddingRequest.t :=
  match BatchBody.texts body with
  | None => None
  | Some texts =>
      if (len texts <? 1)%nat then None
      else
        Some {| BatchEmbeddingRequest.texts := texts;
                BatchEmbeddingRequest.model :=
                  match BatchBody.model body with
                  | Some model => model
                  | None => "all-MiniLM-L6-v2"
                  end |}
  end.

Section main.
Context {L : Lib}.

(** *** API endpoints *)

(** [GET /health] *)
Definition health_check : M HealthResponse.t :=
  try_except
    (model <- models.get_model ;;
     ret {| HealthResponse.status := "healthy";
            HealthResponse.model := model_name model;
            HealthResponse.device := device model;
            HealthResponse.dimension := models.get_dimension model |})
    (fun e =>
       logger_error ("Health check failed: " ++ str_exn e) ;;
       raise (HTTPException 500 ("Service unhealthy: " ++ str_exn e))).

(** [POST /api/embeddings/generate] *)
Definition generate_embedding (request : EmbeddingRequest.t)
  : M EmbeddingResponse.t :=
  try_except
    (logger_info ("Generating embedding for text (length: "
                  ++ str_nat (len_str (EmbeddingRequest.text request))
                  ++ ")") ;;
     model <- models.get_model ;;
     (* Validate model name *)
     (if negb (EmbeddingRequest.model request =? model_name model)
      then raise (HTTPException 400
                    ("Model " ++ EmbeddingRequest.model request
                     ++ " not supported. Only " ++ model_name model
                     ++ " is available."))
      else ret tt) ;;
     (* Generate embedding *)
     embedding <-
       models.generate_embedding model (EmbeddingRequest.text request) ;;
     logger_info ("Successfully generated embedding (dimension: "
                  ++ str_nat (len embedding) ++ ")") ;;
     ret {| EmbeddingResponse.embedding := embedding;
            EmbeddingResponse.model := model_name model;
            EmbeddingResponse.dimension := models.get_dimension model |})
    (fun e =>
       match e with
       | HTTPException _ _ => raise e
       | Exception _ =>
           logger_error ("Error generating embedding: " ++ str_exn e) ;;
           raise (HTTPException 500
                    ("Failed to generate embedding: " ++ str_exn e))
       end).

(** [POST /api/embeddings/generate/batch] *)
Definition generate_embeddings_batch (request : BatchEmbeddingRequest.t)
  : M BatchEmbeddingResponse.t :=
  try_except
    (logger_info ("Generating embeddings for "
                  ++ str_nat (len (BatchEmbeddingRequest.texts request))
                  ++ " texts") ;;
     model <- models.get_model ;;
     (* Validate model name *)
     (if negb (BatchEmbeddingRequest.model request =? model_name model)
      then raise (HTTPException 400
                    ("Model " ++ BatchEmbeddingRequest.model request
                     ++ " not supported. Only " ++ model_name model
                     ++ " is available."))
      else ret tt) ;;
     (* Generate embeddings *)
     embeddings <-
       models.generate_embeddings_batch model
         (BatchEmbeddingRequest.texts request) ;;
     logger_info ("Successfully generated "
                  ++ str_nat (len embeddings) ++ " embeddings") ;;
     ret {| BatchEmbeddingResponse.embeddings := embeddings;
            BatchEmbeddingResponse.model := model_name model;
            BatchEmbeddingResponse.dimension := models.get_dimension model;
            BatchEmbeddingResponse.count := len embeddings |})
    (fun e =>
       match e with
       | HTTPException _ _ => raise e
       | Exception _ =>
           logger_error ("Error generating embeddings: " ++ str_exn e) ;;
           raise (HTTPException 500
                    ("Failed to generate embeddings: " ++ str_exn e))
       end).

(** [startup_event]: initialize the model on startup; a failure is
    logged and raised again. *)
Definition startup_event : M unit :=
  logger_info "Starting Embeddings Service..." ;;
  try_except
    (model <- models.get_model ;;
     logger_info ("Model loaded: " ++ model_name model
                  ++ " on " ++ device model) ;;
     logger_info ("Embedding dimension: "
                  ++ str_int (models.get_dimension model)))
    (fun e =>
       logger_error ("Failed to load model on startup: " ++ str_exn e) ;;
       raise e).
End main.
End main.

(** ** The application object [app] *)

(** How FastAPI serves the routes that main.py registers on [app]:
    the body is validated against the route's request model first,
    what the handler returns is sent with status 200, and an
    [HTTPException] it raises is sent with its own status and detail. *)
Module app.
Section app.
Context {L : Lib}.

Inductive content : Type :=
| Health (r : main.HealthResponse.t)
| Embedding (r : main.EmbeddingResponse.t)
| BatchEmbedding (r : main.BatchEmbeddingResponse.t)
| Detail (detail : string)
| ValidationError
| InternalServerError.

Record Response : Type := { status_code : Z; body : content }.

Definition respond {A} (wrap : A -> content) (r : exn + A) : Response :=
  match r with
  | inr a => {| status_code := 200; body := wrap a |}
  | inl (HTTPException status detail) =>
      {| status_code := status; body := Detail detail |}
  | inl (Exception _) =>
      {| status_code := 500; body := InternalServerError |}
  end.

Definition unprocessable : Response :=
  {| status_code := 422; body := ValidationError |}.

Definition get_health (w : World) : Response * World :=
  let (r, w') := main.health_check w in (respond Health r, w').

Definition post_generate (b : main.GenerateBody.t) (w : World)
  : Response * World :=
  match main.parse_EmbeddingRequest b with
  | None => (unprocessable, w)
  | Some request =>
      let (r, w') := main.generate_embedding request w in
      (respond Embedding r, w')
  end.

Definition post_generate_batch (b : main.BatchBody.t) (w : World)
  : Response * World :=
  match main.parse_BatchEmbeddingRequest b with
  | None => (unprocessable, w)
  | Some request =>
      let (r, w') := main.generate_embeddings_batch request w in
      (respond BatchEmbedding r, w')
  end.

(** *** The life of the process *)

(** What happens in the process after models.py and main.py are
    imported: the startup hook, requests to the three routes, and
    calls of [get_model] by other code (the tests call it). *)
Inductive action : Type :=
| Startup
| GET_health
| POST_generate (b : main.GenerateBody.t)
| POST_generate_batch (b : main.BatchBody.t)
| Call_get_model.

Definition step (a : action) (w : World) : World :=
  match a with
  | Startup => snd (main.startup_event w)
  | GET_health => snd (get_health w)
  | POST_generate b => snd (post_generate b w)
  | POST_generate_batch b => snd (post_generate_batch b w)
  | Call_get_model => snd (models.get_model w)
  end.

Fixpoint run (actions : list action) (w : World) : World :=
  match actions with
  | [] => w
  | a :: rest => run rest (step a w)
  end.

(** The number of [EmbeddingModel] objects whose construction has
    completed, and the calls of the library's [encode] so far. *)
Definition is_Created (e : event) : bool :=
  match e with
  | Created _ => true
  | _ => false
  end.

Definition is_CallEncode (e : event) : bool :=
  match e with
  | CallEncode _ _ => true
  | _ => false
  end.

Definition created (w : World) : nat :=
  List.length (filter is_Created (trace w)).

Definition encode_calls (w : World) : list event :=
  filter is_CallEncode (trace w).
End app.
End app.

(** ** What the service expects of sentence-transformers *)

(** The properties of the library's [encode] that the service's
    documentation and tests rely on.  None of them is established by
    the service's code; a theorem that needs one takes it as a
    premise. *)
Section Contract.
Context {L : Lib}.

(** A one-dimensional result has as many entries as the model's
    embedding dimension. *)
Definition encode_str_shape : Prop :=
  forall st text a,
    encode_str st text = inr a ->
    Z.of_nat (len a) = get_sentence_embedding_dimension st.

(** A list of [n] inputs gives [n] rows. *)
Definition encode_list_shape : Prop :=
  forall st texts rows,
    encode_list st texts = inr rows -> len rows = len texts.

(** No input, no rows, and no error. *)
Definition encode_list_empty : Prop :=
  forall st, encode_list st [] = inr [].

(** Row [i] of a batch is the array the model gives for input [i]
    alone. *)
Definition encode_list_rows : Prop :=
  forall st texts rows,
    encode_list st texts = inr rows ->
    forall i text,
      nth_error texts i = Some text ->
      exists a, nth_error rows i = Some a /\ encode_str st text = inr a.

(** The weights published as all-MiniLM-L6-v2 have dimension 384. *)
Definition MiniLM_dimension : Prop :=
  forall n device st,
    load n "all-MiniLM-L6-v2" device = inr st ->
    get_sentence_embedding_dimension st = 384%Z.
End Contract.

(** ** A small implementation of the interface *)

(** A stand-in for the libraries, to run the service on: no
    accelerator, only the weights of all-MiniLM-L6-v2 can be loaded,
    an embedding is 384 copies of the text's length, and the text
    ["boom"] makes inference fail. *)
Module Toy.
Definition embed (text : string) : lib_result (list Z) :=
  if text =? "boom" then inl "CUDA out of memory"
  else inr (repeat (Z.of_nat (String.length text)) 384).

Fixpoint embed_all (texts : list string) : lib_result (list (list Z)) :=
  match texts with
  | [] => inr []
  | text :: rest =>
      match embed text, embed_all rest with
      | inr a, inr rows => inr (a :: rows)
      | inl message, _ => inl message
      | _, inl message => inl message
      end
  end.

Definition lib : Lib :=
  {| SentenceTransformer := string;
     np_float32 := Z;
     py_float := Z;
     item := fun x => x;
     cuda_is_available := fun _ => false;
     load := fun _ name _ =>
       if name =? "all-MiniLM-L6-v2" then inr name
       else inl ("No model named " ++ name);
     encode_str := fun _ => embed;
     encode_list := fun _ => embed_all;
     get_sentence_embedding_dimension := fun _ => 384%Z;
     str_HTTPException := fun _ detail => detail |}.

(** The instance [get_model] creates on this library. *)
Definition instance : EmbeddingModel (L := lib) :=
  {| oid := 0;
     model_name := "all-MiniLM-L6-v2";
     device := "cpu";
     model := "all-MiniLM-L6-v2" : @SentenceTransformer lib |}.

(** The process once the model is loaded. *)
Definition serving : World (L := lib) :=
  app.run [app.Startup] initial.
End Toy.

(** ** The singleton discipline *)

Section Singleton.
Context {L : Lib}.

(** What holds of the global between two actions: while it is [None]
    no construction has completed; once it is set, exactly one has,
    and the instance carries the default model name. *)
Definition singleton (w : World) : Prop :=
  match _model_instance w with
  | None => app.created w = 0%nat
  | Some m =>
      app.created w = 1%nat /\ model_name m = "all-MiniLM-L6-v2"
  end.

(** How a piece of the service's code may change the global: not at
    all and without a construction, or from [None] to a new instance
    of the default model, with one construction. *)
Definition extends (w w' : World) : Prop :=
  (_model_instance w' = _model_instance w
   /\ app.created w' = app.created w)
  \/ (_model_instance w = None
      /\ app.created w' = S (app.created w)
      /\ exists m,
           _model_instance w' = Some m
           /\ model_name m = "all-MiniLM-L6-v2").

(** The detail of the 400 answer, as both routes format it. *)
Definition not_supported (requested available : string) : string :=
  "Model " ++ requested ++ " not supported. Only " ++ available
  ++ " is available.".
End Singleton.

(** ** Observations on the trace *)

Section Observations.
Context {L : Lib}.

Definition is_error (e : event) : bool :=
  match e with
  | Log ERROR _ => true
  | _ => false
  end.

(** The number of ERROR records in the log. *)
Definition errors (w : World) : nat :=
  List.length (filter is_error (trace w)).

Definition is_CallLoad (e : event) : bool :=
  match e with
  | CallLoad _ _ => true
  | _ => false
  end.

(** The number of times the library was asked to load a model. *)
Definition loads (w : World) : nat :=
  List.length (filter is_CallLoad (trace w)).

(** An [encode] call is given something to encode: a non-empty text,
    or a non-empty list of texts. *)
Definition nonempty_input (e : event) : bool :=
  match e with
  | CallEncode _ (OneText text) => negb (text =? "")
  | CallEncode _ (ManyTexts texts) =>
      match texts with
      | [] => false
      | _ :: _ => true
      end
  | _ => true
  end.

(** An [encode] call is made on the instance that the global holds. *)
Definition on_instance (g : option EmbeddingModel) (e : event) : bool :=
  match e with
  | CallEncode id _ =>
      match g with
      | Some m => Nat.eqb (oid m) id
      | None => false
      end
  | _ => true
  end.

(** An instance as [__init__] leaves it: the default name, the device
    chosen by the availability of CUDA, and the model the library
    loaded for that name on that device. *)
Definition as_constructed (m : EmbeddingModel) : Prop :=
  model_name m = "all-MiniLM-L6-v2"
  /\ device m = (if cuda_is_available (oid m) then "cuda" else "cpu")
  /\ load (oid m) (model_name m) (device m) = inr (model m).

(** What is kept of every event of the trace, given what the global
    holds: an [encode] call is on the global's instance and has
    something to encode. *)
Definition fine (g : option EmbeddingModel) (e : event) : Prop :=
  on_instance g e = true /\ nonempty_input e = true.

(** What is kept of the global: its instance is as the constructor
    left it, and its identity was allocated. *)
Definition loaded_ok (w : World) : Prop :=
  match _model_instance w with
  | None => True
  | Some m => as_constructed m /\ (oid m < next_oid w)%nat
  end.
End Observations.

(** ** A second implementation of the interface *)

(** A second stand-in: an accelerator is present, and the first
    attempt to load a model fails. *)
Module Flaky.
Definition lib : Lib :=
  {| SentenceTransformer := string;
     np_float32 := Z;
     py_float := Z;
     item := fun x => x;
     cuda_is_available := fun _ => true;
     load := fun n name _ =>
       match n with
       | O => inl "Connection error"
       | S _ => inr name
       end;
     encode_str := fun _ => Toy.embed;
     encode_list := fun _ => Toy.embed_all;
     get_sentence_embedding_dimension := fun _ => 384%Z;
     str_HTTPException := fun _ detail => detail |}.

(** The instance the second attempt creates. *)
Definition instance : EmbeddingModel (L := lib) :=
  {| oid := 1;
     model_name := "all-MiniLM-L6-v2";
     device := "cuda";
     model := "all-MiniLM-L6-v2" : @SentenceTransformer lib |}.
End Flaky.

(** ** The pre-trained model, as the specification describes it *)

Module Spec.

(** Modelled from the spec: the pre-trained sentence-embedding model
    behind [SentenceTransformer], whose code and weights are not part
    of the repository.  The specification fixes the model's contract
    (sections 3, 4.1 and 8) and leaves the rest to the model; what it
    leaves open is a field here: the scalars of an array and of a
    Python list, whether an accelerator is present, whether a load
    fails ("missing weights, unsupported name, device error"), the
    dimension of a model other than the default one, and the value at
    each position of the vector of a text, for a model name and a
    device. *)
Record Pretrained : Type := {
  scalar32 : Type;
  scalar : Type;
  to_scalar : scalar32 -> scalar;
  accelerator : nat -> bool;
  load_failure : nat -> string -> string -> option string;
  other_dimension : string -> nat;
  value : string -> string -> string -> nat -> scalar32;
  http_str : Z -> string -> string
}.

(** Modelled from the spec: [dimension()], the "fixed length of every
    vector produced", "fixed per model (384 for the default model)".
    The model is named by what [initialize] was given. *)
Definition dimension (P : Pretrained) (name : string) : nat :=
  if name =? "all-MiniLM-L6-v2" then 384 else other_dimension P name.

(** Modelled from the spec: [encodeOne], which "returns the embedding
    for a single string"; the "empty string is accepted by the
    underlying model and returns a valid vector".  The model "is
    deterministic inference, no sampling": the vector is determined by
    the model, its device and the text, and it has the model's
    dimension.  A loaded model is the name and the device it was
    initialized with. *)
Definition encodeOne (P : Pretrained) (st : string * string)
    (text : string) : list (scalar32 P) :=
  map (value P (fst st) (snd st) text) (seq 0 (dimension P (fst st))).

(** Modelled from the spec: [encodeMany], which "returns one vector
    per input, same order; empty input sequence returns an empty
    output sequence", with [encodeMany(ts)[i] == encodeOne(ts[i])]
    "for every index". *)
Definition encodeMany (P : Pretrained) (st : string * string)
    (texts : list string) : list (list (scalar32 P)) :=
  map (encodeOne P st) texts.

(** Modelled from the spec: [initialize(modelName)], which "loads the
    named pre-trained embedding model onto the best available compute
    device" and fails "if the model cannot be loaded". *)
Definition initialize (P : Pretrained) (n : nat) (name device : string)
  : lib_result (string * string) :=
  match load_failure P n name device with
  | Some message => inl message
  | None => inr (name, device)
  end.

(** Modelled from the spec: the libraries the service is linked
    against, made of the operations above. *)
Definition lib (P : Pretrained) : Lib :=
  {| SentenceTransformer := (string * string)%type;
     np_float32 := scalar32 P;
     py_float := scalar P;
     item := to_scalar P;
     cuda_is_available := accelerator P;
     load := initialize P;
     encode_str := fun st text => inr (encodeOne P st text);
     encode_list := fun st texts => inr (encodeMany P st texts);
     get_sentence_embedding_dimension :=
       fun st => Z.of_nat (dimension P (fst st));
     str_HTTPException := http_str P |}.

(** One choice of what the specification leaves open, to run the
    service on: integers for scalars, no accelerator, no failure,
    and the value at position [i] of the vector of a text the sum of
    [i] and the length of the text. *)
Definition sample : Pretrained :=
  {| scalar32 := Z;
     scalar := Z;
     to_scalar := fun x => x;
     accelerator := fun _ => false;
     load_failure := fun _ _ _ => None;
     other_dimension := fun _ => 8%nat;
     value := fun _ _ text i => Z.of_nat (String.length text + i);
     http_str := fun _ detail => detail |}.

(** The instance [get_model] creates on [sample]. *)
Definition instance : EmbeddingModel (L := lib sample) :=
  {| oid := 0;
     model_name := "all-MiniLM-L6-v2";
     device := "cpu";
     model :=
       ("all-MiniLM-L6-v2", "cpu") : @SentenceTransformer (lib sample) |}.
End Spec.

(** ** Tactics *)

(** Symbolic execution of the service's code: unfold the monad and the
    handlers, then split on what the global holds and on what the
    library answers. *)
Ltac unfold_py :=
  cbv beta iota zeta delta
    [main.generate_embedding main.generate_embeddings_batch
     main.health_check main.startup_event
     main.parse_EmbeddingRequest main.parse_BatchEmbeddingRequest
     models.get_model models.new_EmbeddingModel models.new_object
     models.set_model_instance models.generate_embedding
     models.generate_embeddings_batch
     app.post_generate app.post_generate_batch app.get_health app.respond
     app.step app.unprocessable app.status_code app.body
     main.GenerateBody.text main.GenerateBody.model
     main.BatchBody.texts main.BatchBody.model
     main.EmbeddingRequest.text main.EmbeddingRequest.model
     main.BatchEmbeddingRequest.texts main.BatchEmbeddingRequest.model
     try_except bind ret raise tell call logger_info logger_error emit
     _model_instance next_oid trace model_name fst snd].

Ltac case_step :=
  match goal with
  | |- context [match ?x with _ => _ end] =>
      lazymatch x with
      | context [match _ with _ => _ end] => fail
      | _ => destruct x eqn:?
      end
  end.

Ltac run_py := unfold_py; repeat (case_step; unfold_py).

Ltac count_events :=
  unfold app.created, app.encode_calls; cbn [trace];
  rewrite ?filter_app; cbn [filter app.is_Created app.is_CallEncode];
  rewrite ?app_nil_r, ?length_app; cbn [List.length];
  first [reflexivity | lia].

Ltac solve_extends :=
  first
    [ left; split; [reflexivity | count_events]
    | right; split;
      [reflexivity
      | split; [count_events | eexists; split; reflexivity] ] ].

Ltac settle :=
  repeat match goal with
    | |- _ /\ _ => split
    | |- forall _, _ => intro
    | H : inl _ = inr _ |- _ => discriminate H
    | H : inr _ = inl _ |- _ => discriminate H
    | H : inr _ = inr _ |- _ => injection H as H; try subst
    | H : inl _ = inl _ |- _ => injection H as H; try subst
    end.

Ltac eqb_clash :=
  match goal with
  | H : negb (?a =? ?b) = false, N : ?a <> ?b |- _ =>
      exfalso; apply N; apply String.eqb_eq;
      apply negb_false_iff; exact H
  | H : negb (?a =? ?b) = true, E : ?a = ?b |- _ =>
      exfalso; apply negb_true_iff in H; rewrite E, String.eqb_refl in H;
      discriminate H
  | H : negb (?a =? ?a) = true |- _ =>
      exfalso; rewrite String.eqb_refl in H; discriminate H
  end.

(** * Properties of the model wrapper *)

Section Wrapper.
Context {L : Lib}.

Lemma tolist_length (a : list np_float32) : len (tolist a) = len a.
Proof. unfold tolist, len. apply length_map. Qed.

(** One call of the single-text method: the text goes to the
    library as it is, and the library's answer comes back converted. *)
Lemma generate_embedding_run (self : EmbeddingModel) (text : string)
    (w : World) :
  models.generate_embedding self text w =
    (match encode_str (model self) text with
     | inl message => inl (Exception message)
     | inr a => inr (tolist a)
     end,
     emit (CallEncode (oid self) (OneText text)) w).
Proof.
  unfold models.generate_embedding, bind, tell, call.
  destruct (encode_str (model self) text); reflexivity.
Qed.

Lemma generate_embeddings_batch_run (self : EmbeddingModel)
    (texts : list string) (w : World) :
  models.generate_embeddings_batch self texts w =
    (match encode_list (model self) texts with
     | inl message => inl (Exception message)
     | inr rows => inr (map tolist rows)
     end,
     emit (CallEncode (oid self) (ManyTexts texts)) w).
Proof.
  unfold models.generate_embeddings_batch, bind, tell, call.
  destruct (encode_list (model self) texts); reflexivity.
Qed.

(** The name an instance gets from the constructor. *)
Lemma new_EmbeddingModel_name (name : option string) (w w' : World)
    (m : EmbeddingModel) :
  models.new_EmbeddingModel name w = (inr m, w') ->
  model_name m = match name with
                 | Some n => n
                 | None => "all-MiniLM-L6-v2"
                 end
  /\ load (next_oid w) (model_name m) (device m) = inr (model m)
  /\ oid m = next_oid w.
Proof.
  unfold models.new_EmbeddingModel, models.new_object, bind, tell, call,
    logger_info, ret, raise.
  cbn [next_oid emit].
  destruct (load _ _ _) as [message | st] eqn:Hload; intros H.
  - discriminate H.
  - injection H as Hm _. subst m. cbn. auto.
Qed.
End Wrapper.

(** ** The stand-in library keeps the contract *)

Lemma Toy_embed_length (text : string) (a : list Z) :
  Toy.embed text = inr a -> List.length a = 384%nat.
Proof.
  unfold Toy.embed. destruct (text =? "boom"); intros H.
  - discriminate H.
  - assert (Ha : a = repeat (Z.of_nat (String.length text)) 384)
      by congruence.
    rewrite Ha. apply repeat_length.
Qed.

Lemma Toy_encode_str_shape : encode_str_shape (L := Toy.lib).
Proof.
  intros st text a H. cbn in *. unfold len.
  rewrite (Toy_embed_length text a H). reflexivity.
Qed.

Lemma Toy_MiniLM_dimension : MiniLM_dimension (L := Toy.lib).
Proof. intros n device st _. reflexivity. Qed.

Lemma Toy_encode_list_rows : encode_list_rows (L := Toy.lib).
Proof.
  intros st texts. cbn. induction texts as [| t rest IH]; intros rows H i text Hi.
  - destruct i; discriminate Hi.
  - cbn in H.
    destruct (Toy.embed t) as [msg | a] eqn:Ht;
      destruct (Toy.embed_all rest) as [msg' | rows'] eqn:Hrest;
      try discriminate H.
    injection H as <-. destruct i as [| i].
    + injection Hi as <-. exists a. split; [reflexivity | exact Ht].
    + cbn in Hi |- *. exact (IH rows' eq_refl i text Hi).
Qed.

Lemma Toy_encode_list_shape : encode_list_shape (L := Toy.lib).
Proof.
  intros st texts. cbn. unfold len.
  induction texts as [| t rest IH]; intros rows H.
  - injection H as <-. reflexivity.
  - cbn in H.
    destruct (Toy.embed t) as [msg | a];
      destruct (Toy.embed_all rest) as [msg' | rows'];
      try discriminate H.
    injection H as <-. cbn. f_equal. exact (IH rows' eq_refl).
Qed.

Lemma Toy_encode_list_empty : encode_list_empty (L := Toy.lib).
Proof. intros st. reflexivity. Qed.

(** ** The wrapper on a library that keeps the contract *)

(** Dimension, for a library that keeps the contract. When the library
    returns an array for a non-empty text, [generate_embedding]
    returns a list whose length is [get_dimension()], and for an
    instance constructed with the default model name that dimension is
    384. The shape of the library's result and the dimension of the
    published weights are the library's, taken as premises. *)
Theorem generate_embedding_dimension {L : Lib} :
  encode_str_shape ->
  MiniLM_dimension ->
  forall (self : EmbeddingModel) (text : string) (a : list np_float32)
         (w : World),
    text <> "" ->
    encode_str (model self) text = inr a ->
    fst (models.generate_embedding self text w) = inr (tolist a)
    /\ Z.of_nat (len (tolist a)) = models.get_dimension self
    /\ (forall w0 w1,
           models.new_EmbeddingModel None w0 = (inr self, w1) ->
           models.get_dimension self = 384%Z).
Proof.
  intros Hshape Hdim self text a w _ Henc.
  rewrite generate_embedding_run, Henc. cbn [fst].
  split; [reflexivity | split].
  - rewrite tolist_length. exact (Hshape _ _ _ Henc).
  - intros w0 w1 Hnew.
    destruct (new_EmbeddingModel_name _ _ _ _ Hnew) as (Hname & Hload & _).
    rewrite Hname in Hload. exact (Hdim _ _ _ Hload).
Qed.

Lemma generate_embedding_dimension_witness :
  fst (models.generate_embedding Toy.instance "hello" Toy.serving)
    = inr (tolist (L := Toy.lib) (repeat 5%Z 384))
  /\ Z.of_nat (len (tolist (L := Toy.lib) (repeat 5%Z 384)))
     = models.get_dimension Toy.instance
  /\ (forall w0 w1,
         models.new_EmbeddingModel None w0 = (inr Toy.instance, w1) ->
         models.get_dimension Toy.instance = 384%Z).
Proof.
  apply (generate_embedding_dimension (L := Toy.lib)
           Toy_encode_str_shape Toy_MiniLM_dimension
           Toy.instance "hello" (repeat 5%Z 384) Toy.serving).
  - discriminate.
  - reflexivity.
Defined.

(** The empty string, for a library that keeps the contract.
    [generate_embedding("")] hands the empty string to the library
    without a check of its own: the result is the library's,
    converted, of length [get_dimension()] when the library returns an
    array. The HTTP layer answers a body with an empty [text] with
    422. *)
Theorem generate_embedding_empty_text {L : Lib} :
  encode_str_shape ->
  forall (self : EmbeddingModel) (a : list np_float32) (w : World),
    encode_str (model self) "" = inr a ->
    models.generate_embedding self "" w
      = (inr (tolist a), emit (CallEncode (oid self) (OneText "")) w)
    /\ Z.of_nat (len (tolist a)) = models.get_dimension self
    /\ (forall name w',
           app.post_generate
             {| main.GenerateBody.text := Some "";
                main.GenerateBody.model := name |} w'
           = (app.unprocessable, w')).
Proof.
  intros Hshape self a w Henc.
  rewrite generate_embedding_run, Henc.
  split; [reflexivity | split].
  - rewrite tolist_length. exact (Hshape _ _ _ Henc).
  - intros name w'. reflexivity.
Qed.

Lemma generate_embedding_empty_text_witness :
  models.generate_embedding Toy.instance "" Toy.serving
    = (inr (tolist (L := Toy.lib) (repeat 0%Z 384)),
       emit (CallEncode 0 (OneText "")) Toy.serving)
  /\ Z.of_nat (len (tolist (L := Toy.lib) (repeat 0%Z 384))) = 384%Z
  /\ (forall name w',
         app.post_generate (L := Toy.lib)
           {| main.GenerateBody.text := Some "";
              main.GenerateBody.model := name |} w'
         = (app.unprocessable, w')).
Proof.
  apply (generate_embedding_empty_text (L := Toy.lib)
           Toy_encode_str_shape Toy.instance (repeat 0%Z 384) Toy.serving).
  reflexivity.
Defined.

(** Batch length, for a library that keeps the contract. When the
    library returns rows for the texts, [generate_embeddings_batch]
    returns one list per text, and for the empty list of texts it
    returns the empty list and raises nothing. That the library gives
    one row per input and no row for no input are premises. *)
Theorem generate_embeddings_batch_length {L : Lib} :
  encode_list_shape ->
  encode_list_empty ->
  forall (self : EmbeddingModel) (w : World),
    (forall texts rows,
        encode_list (model self) texts = inr rows ->
        fst (models.generate_embeddings_batch self texts w)
          = inr (map tolist rows)
        /\ len (map tolist rows) = len texts)
    /\ fst (models.generate_embeddings_batch self [] w) = inr [].
Proof.
  intros Hshape Hempty self w. split.
  - intros texts rows Henc.
    rewrite generate_embeddings_batch_run, Henc. cbn [fst].
    split; [reflexivity |].
    unfold len. rewrite length_map. exact (Hshape _ _ _ Henc).
  - rewrite generate_embeddings_batch_run, Hempty. reflexivity.
Qed.

Lemma generate_embeddings_batch_length_witness :
  (forall texts rows,
      encode_list (Lib := Toy.lib) (model Toy.instance) texts = inr rows ->
      fst (models.generate_embeddings_batch Toy.instance texts Toy.serving)
        = inr (map tolist rows)
      /\ len (map (tolist (L := Toy.lib)) rows) = len texts)
  /\ fst (models.generate_embeddings_batch Toy.instance [] Toy.serving)
     = inr [].
Proof.
  apply (generate_embeddings_batch_length (L := Toy.lib)
           Toy_encode_list_shape Toy_encode_list_empty
           Toy.instance Toy.serving).
Defined.

(** Batch and single path, for a library that keeps the contract. When
    the batch method returns for the texts [ts], its entry at each
    valid index [i] is the list the single-text method returns for
    [ts[i]]. The service makes two separate library calls; that a row
    of a batch is the array of the text alone is a premise on the
    library. *)
Theorem batch_single_consistency {L : Lib} :
  encode_list_rows ->
  forall (self : EmbeddingModel) (ts : list string)
         (vs : list (list py_float)) (w w1 : World),
    models.generate_embeddings_batch self ts w = (inr vs, w1) ->
    forall (i : nat) (t : string),
      nth_error ts i = Some t ->
      exists v,
        nth_error vs i = Some v
        /\ forall w', fst (models.generate_embedding self t w') = inr v.
Proof.
  intros Hrows self ts vs w w1 Hbatch i t Hi.
  rewrite generate_embeddings_batch_run in Hbatch.
  destruct (encode_list (model self) ts) as [msg | rows] eqn:Henc;
    [discriminate Hbatch |].
  injection Hbatch as <- _.
  destruct (Hrows _ _ _ Henc i t Hi) as (a & Hrow & Hone).
  exists (tolist a). split.
  - rewrite nth_error_map, Hrow. reflexivity.
  - intros w'. rewrite generate_embedding_run, Hone. reflexivity.
Qed.

Lemma batch_single_consistency_witness :
  exists v,
    nth_error [repeat 2%Z 384; repeat 5%Z 384] 1 = Some v
    /\ forall w',
         fst (models.generate_embedding Toy.instance "hello" w') = inr v.
Proof.
  apply (batch_single_consistency (L := Toy.lib) Toy_encode_list_rows
           Toy.instance ["hi"; "hello"]
           [repeat 2%Z 384; repeat 5%Z 384]
           Toy.serving
           (emit (CallEncode 0 (ManyTexts ["hi"; "hello"])) Toy.serving)
           eq_refl 1%nat "hello" eq_refl).
Defined.

(** * Properties of the HTTP facade *)

Section Facade.
Context {L : Lib}.

Lemma get_model_loaded (w : World) (m : EmbeddingModel) :
  _model_instance w = Some m -> models.get_model w = (inr m, w).
Proof. intros H. unfold models.get_model. rewrite H. reflexivity. Qed.

(** What [get_model] returns does not depend on the log. *)
Lemma get_model_emit (e : event) (w : World) :
  fst (models.get_model (emit e w)) = fst (models.get_model w).
Proof. destruct w as [inst n tr]. run_py; congruence. Qed.

Lemma get_model_extends (w : World) :
  extends w (snd (models.get_model w))
  /\ app.encode_calls (snd (models.get_model w)) = app.encode_calls w
  /\ forall m, fst (models.get_model w) = inr m ->
               _model_instance (snd (models.get_model w)) = Some m.
Proof.
  destruct w as [inst n tr]. unfold extends. run_py; settle.
  all: first [solve_extends | count_events | reflexivity | idtac].
Qed.

(** The handlers never touch the global but through [get_model]. *)
Lemma generate_embedding_extends (request : main.EmbeddingRequest.t)
    (w : World) :
  extends w (snd (main.generate_embedding request w)).
Proof.
  destruct w as [inst n tr]. unfold extends. run_py; solve_extends.
Qed.

Lemma generate_embeddings_batch_extends
    (request : main.BatchEmbeddingRequest.t) (w : World) :
  extends w (snd (main.generate_embeddings_batch request w)).
Proof.
  destruct w as [inst n tr]. unfold extends. run_py; solve_extends.
Qed.

Lemma health_check_extends (w : World) :
  extends w (snd (main.health_check w)).
Proof.
  destruct w as [inst n tr]. unfold extends. run_py; solve_extends.
Qed.

Lemma startup_event_extends (w : World) :
  extends w (snd (main.startup_event w)).
Proof.
  destruct w as [inst n tr]. unfold extends. run_py; solve_extends.
Qed.

Lemma extends_refl (w : World) : extends w w.
Proof. left. split; reflexivity. Qed.

Lemma step_extends (a : app.action) (w : World) : extends w (app.step a w).
Proof.
  destruct a as [| | b | b |]; cbn [app.step].
  - apply startup_event_extends.
  - unfold app.get_health.
    pose proof (health_check_extends w) as H.
    destruct (main.health_check w); exact H.
  - unfold app.post_generate.
    destruct (main.parse_EmbeddingRequest b) as [request |];
      [| apply extends_refl].
    pose proof (generate_embedding_extends request w) as H.
    destruct (main.generate_embedding request w); exact H.
  - unfold app.post_generate_batch.
    destruct (main.parse_BatchEmbeddingRequest b) as [request |];
      [| apply extends_refl].
    pose proof (generate_embeddings_batch_extends request w) as H.
    destruct (main.generate_embeddings_batch request w); exact H.
  - apply get_model_extends.
Qed.

Lemma extends_singleton (w w' : World) :
  singleton w -> extends w w' -> singleton w'.
Proof.
  unfold singleton, extends.
  intros Hw [[Hinst Hcount] | (Hnone & Hcount & m & Hsome & Hname)].
  - rewrite Hinst, Hcount. exact Hw.
  - rewrite Hnone in Hw. rewrite Hsome, Hcount, Hw. auto.
Qed.

Lemma extends_keeps (w w' : World) (m : EmbeddingModel) :
  extends w w' -> _model_instance w = Some m -> _model_instance w' = Some m.
Proof.
  intros [[Hinst _] | (Hnone & _)] Hm; congruence.
Qed.

Lemma singleton_initial : singleton initial.
Proof. reflexivity. Qed.

Lemma run_singleton (actions : list app.action) :
  forall w, singleton w -> singleton (app.run actions w).
Proof.
  induction actions as [| a rest IH]; intros w Hw; cbn [app.run].
  - exact Hw.
  - apply IH. exact (extends_singleton _ _ Hw (step_extends a w)).
Qed.

Lemma run_keeps (actions : list app.action) (m : EmbeddingModel) :
  forall w, _model_instance w = Some m ->
            _model_instance (app.run actions w) = Some m.
Proof.
  induction actions as [| a rest IH]; intros w Hw; cbn [app.run].
  - exact Hw.
  - apply IH. exact (extends_keeps _ _ m (step_extends a w) Hw).
Qed.
End Facade.

(** C2 (model-name mismatch).  On both generate routes, with [m] the
    model [get_model] provides, a request whose [model] field is not
    [m]'s name is answered with status 400 and the detail naming both
    models; the library's [encode] is not called and the global still
    holds [m]. *)
Theorem model_mismatch_400 {L : Lib} :
  forall (w : World) (m : EmbeddingModel),
    fst (models.get_model w) = inr m ->
    (forall request : main.EmbeddingRequest.t,
        main.EmbeddingRequest.model request <> model_name m ->
        let out := main.generate_embedding request w in
        app.respond app.Embedding (fst out)
          = {| app.status_code := 400;
               app.body :=
                 app.Detail
                   (not_supported (main.EmbeddingRequest.model request)
                      (model_name m)) |}
        /\ _model_instance (snd out) = Some m
        /\ app.encode_calls (snd out) = app.encode_calls w)
    /\ (forall request : main.BatchEmbeddingRequest.t,
           main.BatchEmbeddingRequest.model request <> model_name m ->
           let out := main.generate_embeddings_batch request w in
           app.respond app.BatchEmbedding (fst out)
             = {| app.status_code := 400;
                  app.body :=
                    app.Detail
                      (not_supported
                         (main.BatchEmbeddingRequest.model request)
                         (model_name m)) |}
           /\ _model_instance (snd out) = Some m
           /\ app.encode_calls (snd out) = app.encode_calls w).
Proof.
  intros [inst n tr] m Hm. split.
  - intros [text name] Hne. cbn in Hne. revert Hm. unfold not_supported.
    run_py; intros Hm; settle; try eqb_clash.
    all: first [reflexivity | count_events].
  - intros [texts name] Hne. cbn in Hne. revert Hm. unfold not_supported.
    run_py; intros Hm; settle; try eqb_clash.
    all: first [reflexivity | count_events].
Qed.

Lemma model_mismatch_400_witness :
  app.respond (L := Toy.lib) app.Embedding
    (fst (main.generate_embedding
            {| main.EmbeddingRequest.text := "x";
               main.EmbeddingRequest.model := "bogus" |} Toy.serving))
  = {| app.status_code := 400;
       app.body :=
         app.Detail
           "Model bogus not supported. Only all-MiniLM-L6-v2 is available." |}.
Proof.
  pose proof (model_mismatch_400 (L := Toy.lib) Toy.serving Toy.instance
                eq_refl) as [Hone _].
  refine (proj1 (Hone {| main.EmbeddingRequest.text := "x";
                         main.EmbeddingRequest.model := "bogus" |} _)).
  cbn. discriminate.
Defined.

(** C7 (catch-all 500).  On both generate routes, with [m] the model
    [get_model] provides and a request that names it, a failure of the
    library's [encode] with message [msg] is answered with status 500
    and a detail that ends in [msg] as it is.  For a batch the answer
    is that error alone: no embeddings are returned. *)
Theorem encoding_failure_500 {L : Lib} :
  forall (w : World) (m : EmbeddingModel),
    fst (models.get_model w) = inr m ->
    (forall (request : main.EmbeddingRequest.t) (msg : string),
        main.EmbeddingRequest.model request = model_name m ->
        encode_str (model m) (main.EmbeddingRequest.text request) = inl msg ->
        app.respond app.Embedding (fst (main.generate_embedding request w))
          = {| app.status_code := 500;
               app.body :=
                 app.Detail ("Failed to generate embedding: " ++ msg) |})
    /\ (forall (request : main.BatchEmbeddingRequest.t) (msg : string),
           main.BatchEmbeddingRequest.model request = model_name m ->
           encode_list (model m) (main.BatchEmbeddingRequest.texts request)
             = inl msg ->
           app.respond app.BatchEmbedding
             (fst (main.generate_embeddings_batch request w))
           = {| app.status_code := 500;
                app.body :=
                  app.Detail ("Failed to generate embeddings: " ++ msg) |}).
Proof.
  intros [inst n tr] m Hm. split.
  - intros [text name] msg Hname Henc. cbn in Hname, Henc. subst name.
    revert Hm. run_py; intros Hm; settle; try eqb_clash.
    all: cbn in *; congruence.
  - intros [texts name] msg Hname Henc. cbn in Hname, Henc. subst name.
    revert Hm. run_py; intros Hm; settle; try eqb_clash.
    all: cbn in *; congruence.
Qed.

Lemma encoding_failure_500_witness :
  app.respond (L := Toy.lib) app.BatchEmbedding
    (fst (main.generate_embeddings_batch
            {| main.BatchEmbeddingRequest.texts := ["fine"; "boom"];
               main.BatchEmbeddingRequest.model := "all-MiniLM-L6-v2" |}
            Toy.serving))
  = {| app.status_code := 500;
       app.body :=
         app.Detail "Failed to generate embeddings: CUDA out of memory" |}.
Proof.
  pose proof (encoding_failure_500 (L := Toy.lib) Toy.serving Toy.instance
                eq_refl) as [_ Hbatch].
  exact (Hbatch {| main.BatchEmbeddingRequest.texts := ["fine"; "boom"];
                   main.BatchEmbeddingRequest.model := "all-MiniLM-L6-v2" |}
           "CUDA out of memory" eq_refl eq_refl).
Defined.

(** C5 (schema validation).  A generate body whose [text] is missing
    or empty, and a batch body whose [texts] is missing or empty, is
    answered with status 422, whatever its [model] field, and the
    process is left as it was: the handler is not entered, so there is
    no log record, no [get_model], no name check and no [encode]. *)
Theorem schema_validation_422 {L : Lib} :
  forall (w : World) (name : option string),
    app.status_code app.unprocessable = 422%Z
    /\ app.post_generate
         {| main.GenerateBody.text := None;
            main.GenerateBody.model := name |} w
       = (app.unprocessable, w)
    /\ app.post_generate
         {| main.GenerateBody.text := Some "";
            main.GenerateBody.model := name |} w
       = (app.unprocessable, w)
    /\ app.post_generate_batch
         {| main.BatchBody.texts := None;
            main.BatchBody.model := name |} w
       = (app.unprocessable, w)
    /\ app.post_generate_batch
         {| main.BatchBody.texts := Some [];
            main.BatchBody.model := name |} w
       = (app.unprocessable, w).
Proof.
  intros w name.
  unfold app.post_generate, app.post_generate_batch,
    main.parse_EmbeddingRequest, main.parse_BatchEmbeddingRequest.
  cbn [main.GenerateBody.text main.BatchBody.texts len_str len
       String.length List.length Nat.ltb Nat.leb].
  repeat split.
Qed.

(** Once the model is loaded, the answer to a generate request does
    not depend on the rest of the process state: the handler reads
    the global and the body, nothing else. *)
Lemma post_generate_loaded {L : Lib} (b : main.GenerateBody.t)
    (m : EmbeddingModel) (w1 w2 : World) :
  _model_instance w1 = Some m ->
  _model_instance w2 = Some m ->
  fst (app.post_generate b w1) = fst (app.post_generate b w2).
Proof.
  destruct w1 as [inst1 n1 tr1], w2 as [inst2 n2 tr2], b as [text name].
  cbn [_model_instance]. intros -> ->.
  run_py; reflexivity.
Qed.

(** C9 (singleton).  In a process that has run any actions, once
    [get_model] has returned an instance [m], every later [get_model],
    after any further actions, returns the same [m] (same identity,
    model name and device) and constructs nothing; the number of
    completed constructions is one from then on, and never more than
    one in any process. *)
Theorem get_model_singleton {L : Lib} :
  forall (before later : list app.action) (m : EmbeddingModel)
         (w1 : World),
    models.get_model (app.run before initial) = (inr m, w1) ->
    (forall actions, (app.created (app.run actions initial) <= 1)%nat)
    /\ app.created w1 = 1%nat
    /\ models.get_model (app.run later w1) = (inr m, app.run later w1)
    /\ app.created (app.run later w1) = 1%nat.
Proof.
  intros before later m w1 Hget.
  assert (Hbound : forall actions,
             (app.created (app.run actions initial) <= 1)%nat).
  { intros actions.
    pose proof (run_singleton actions initial singleton_initial) as Hs.
    unfold singleton in Hs.
    destruct (_model_instance (app.run actions initial));
      [destruct Hs as [-> _] | rewrite Hs]; lia. }
  split; [exact Hbound |].
  pose proof (run_singleton before initial singleton_initial) as H0.
  destruct (get_model_extends (app.run before initial)) as (Hext & _ & Hset).
  rewrite Hget in Hext, Hset. cbn [fst snd] in Hext, Hset.
  specialize (Hset m eq_refl).
  pose proof (extends_singleton _ _ H0 Hext) as H1.
  pose proof (run_singleton later w1 H1) as H2.
  pose proof (run_keeps later m w1 Hset) as Hkept.
  unfold singleton in H1, H2. rewrite Hset in H1. rewrite Hkept in H2.
  split; [exact (proj1 H1) | split].
  - apply get_model_loaded. exact Hkept.
  - exact (proj1 H2).
Qed.

Lemma get_model_singleton_witness :
  (forall actions,
      (app.created (app.run (L := Toy.lib) actions initial) <= 1)%nat)
  /\ app.created Toy.serving = 1%nat
  /\ models.get_model
       (app.run [app.GET_health; app.Call_get_model] Toy.serving)
     = (inr Toy.instance,
        app.run [app.GET_health; app.Call_get_model] Toy.serving)
  /\ app.created (app.run [app.GET_health; app.Call_get_model] Toy.serving)
     = 1%nat.
Proof.
  apply (get_model_singleton (L := Toy.lib) [app.Startup]
           [app.GET_health; app.Call_get_model] Toy.instance Toy.serving).
  reflexivity.
Defined.

(** A request that leaves the model name to its default is not
    answered 400 in a process that keeps the singleton discipline. *)
Lemma default_model_accepted {L : Lib} (w : World) :
  singleton w ->
  forall (text : option string) (texts : option (list string)),
    app.status_code
      (fst (app.post_generate
              {| main.GenerateBody.text := text;
                 main.GenerateBody.model := None |} w)) <> 400%Z
    /\ app.status_code
         (fst (app.post_generate_batch
                 {| main.BatchBody.texts := texts;
                    main.BatchBody.model := None |} w)) <> 400%Z.
Proof.
  destruct w as [inst n tr]. unfold singleton. cbn [_model_instance].
  intros Hs text texts.
  destruct inst as [[id name dev st] |]; cbn [model_name] in Hs.
  - destruct Hs as [_ ->]. split; run_py; try eqb_clash; discriminate.
  - split; run_py; try eqb_clash; discriminate.
Qed.

(** C10 (defaulted model name).  In a process that has run any
    actions, a request to either generate route that leaves out the
    [model] field is never answered with status 400: the schema's
    default is the name the singleton is constructed with. *)
Theorem default_model_never_400 {L : Lib} :
  forall (actions : list app.action) (text : option string)
         (texts : option (list string)),
    app.status_code
      (fst (app.post_generate
              {| main.GenerateBody.text := text;
                 main.GenerateBody.model := None |}
              (app.run actions initial))) <> 400%Z
    /\ app.status_code
         (fst (app.post_generate_batch
                 {| main.BatchBody.texts := texts;
                    main.BatchBody.model := None |}
                 (app.run actions initial))) <> 400%Z.
Proof.
  intros actions text texts.
  apply default_model_accepted.
  apply run_singleton. exact singleton_initial.
Qed.

(** ** Further facts about the routes *)

(** Nothing but an [HTTPException] leaves a generate handler, and its
    status is 400 or 500. *)
Lemma generate_embedding_raises {L : Lib} (request : main.EmbeddingRequest.t)
    (w : World) :
  match fst (main.generate_embedding request w) with
  | inr _ => True
  | inl (HTTPException status _) => status = 400%Z \/ status = 500%Z
  | inl (Exception _) => False
  end.
Proof.
  destruct w as [inst n tr], request as [text name].
  run_py; auto.
Qed.

Lemma generate_embeddings_batch_raises {L : Lib}
    (request : main.BatchEmbeddingRequest.t) (w : World) :
  match fst (main.generate_embeddings_batch request w) with
  | inr _ => True
  | inl (HTTPException status _) => status = 400%Z \/ status = 500%Z
  | inl (Exception _) => False
  end.
Proof.
  destruct w as [inst n tr], request as [texts name].
  run_py; auto.
Qed.

(** A failure to load the model is answered like a failure to encode. *)
Lemma load_failure_500 {L : Lib} (request : main.EmbeddingRequest.t)
    (w : World) (msg : string) :
  fst (models.get_model w) = inl (Exception msg) ->
  fst (main.generate_embedding request w)
  = inl (HTTPException 500 ("Failed to generate embedding: " ++ msg)).
Proof.
  destruct w as [inst n tr], request as [text name].
  run_py; intros H; settle; try discriminate H; reflexivity.
Qed.

(** The schema lets through a body with a non-empty [text], and fills
    in the default model name. *)
Lemma parse_EmbeddingRequest_accepts (c : Ascii.ascii) (rest : string)
    (name : option string) :
  main.parse_EmbeddingRequest
    {| main.GenerateBody.text := Some (String c rest);
       main.GenerateBody.model := name |}
  = Some {| main.EmbeddingRequest.text := String c rest;
            main.EmbeddingRequest.model :=
              match name with
              | Some model => model
              | None => "all-MiniLM-L6-v2"
              end |}.
Proof. reflexivity. Qed.

(** A batch may hold empty strings; only the empty list is refused. *)
Lemma parse_BatchEmbeddingRequest_accepts (text : string)
    (rest : list string) (name : option string) :
  main.parse_BatchEmbeddingRequest
    {| main.BatchBody.texts := Some (text :: rest);
       main.BatchBody.model := name |}
  = Some {| main.BatchEmbeddingRequest.texts := text :: rest;
            main.BatchEmbeddingRequest.model :=
              match name with
              | Some model => model
              | None => "all-MiniLM-L6-v2"
              end |}.
Proof. reflexivity. Qed.

(** ** The repository's tests, run on the stand-in library *)

Example test_health_check :
  fst (app.get_health (L := Toy.lib) initial)
  = {| app.status_code := 200;
       app.body :=
         app.Health
           {| main.HealthResponse.status := "healthy";
              main.HealthResponse.model := "all-MiniLM-L6-v2";
              main.HealthResponse.device := "cpu";
              main.HealthResponse.dimension := 384 |} |}.
Proof. reflexivity. Qed.

Example test_generate_embedding_empty_text :
  app.status_code
    (fst (app.post_generate (L := Toy.lib)
            {| main.GenerateBody.text := Some "";
               main.GenerateBody.model := Some "all-MiniLM-L6-v2" |}
            initial))
  = 422%Z.
Proof. reflexivity. Qed.

Example test_generate_embedding_wrong_model :
  app.status_code
    (fst (app.post_generate (L := Toy.lib)
            {| main.GenerateBody.text := Some "Test sentence";
               main.GenerateBody.model := Some "unsupported-model" |}
            initial))
  = 400%Z.
Proof. reflexivity. Qed.

Example test_generate_embeddings_batch :
  match
    fst (app.post_generate_batch (L := Toy.lib)
           {| main.BatchBody.texts :=
                Some ["First test sentence."; "Second test sentence.";
                      "Third test sentence."];
              main.BatchBody.model := Some "all-MiniLM-L6-v2" |}
           initial)
  with
  | {| app.status_code := status; app.body := app.BatchEmbedding r |} =>
      status = 200%Z
      /\ main.BatchEmbeddingResponse.count r = 3%nat
      /\ main.BatchEmbeddingResponse.dimension r = 384%Z
      /\ forallb (fun emb => (len emb =? 384)%nat)
           (main.BatchEmbeddingResponse.embeddings r) = true
  | _ => False
  end.
Proof. vm_compute. repeat split. Qed.

Example test_generate_embeddings_batch_empty :
  app.status_code
    (fst (app.post_generate_batch (L := Toy.lib)
            {| main.BatchBody.texts := Some [];
               main.BatchBody.model := Some "all-MiniLM-L6-v2" |}
            initial))
  = 422%Z.
Proof. reflexivity. Qed.

Example test_get_model_singleton :
  fst (models.get_model (L := Toy.lib) initial)
  = fst (models.get_model (snd (models.get_model (L := Toy.lib) initial))).
Proof. reflexivity. Qed.

Example test_empty_text :
  match fst (models.generate_embedding Toy.instance "" Toy.serving) with
  | inr embedding => len embedding = 384%nat
  | inl _ => False
  end.
Proof. reflexivity. Qed.

Example test_batch_empty_list :
  fst (models.generate_embeddings_batch Toy.instance [] Toy.serving) = inr [].
Proof. reflexivity. Qed.

(** * Further properties of the service *)

Ltac count_logs :=
  unfold errors, loads, app.created, app.encode_calls; cbn [trace];
  rewrite ?filter_app;
  cbn [filter is_error is_CallLoad app.is_Created app.is_CallEncode];
  rewrite ?app_nil_r, ?length_app; cbn [List.length];
  first [reflexivity | lia].

(** X1 (health check, healthy).  When [get_model] provides an
    instance, the health route answers 200 with status "healthy" and
    the instance's name, device and dimension; the global holds that
    instance afterwards, [encode] is not called and no ERROR is
    logged. *)
Theorem health_check_healthy {L : Lib} :
  forall (w : World) (m : EmbeddingModel),
    fst (models.get_model w) = inr m ->
    fst (app.get_health w)
    = {| app.status_code := 200;
         app.body :=
           app.Health
             {| main.HealthResponse.status := "healthy";
                main.HealthResponse.model := model_name m;
                main.HealthResponse.device := device m;
                main.HealthResponse.dimension := models.get_dimension m |} |}
    /\ _model_instance (snd (app.get_health w)) = Some m
    /\ app.encode_calls (snd (app.get_health w)) = app.encode_calls w
    /\ errors (snd (app.get_health w)) = errors w.
Proof.
  intros [inst n tr] m. run_py; intros Hm; settle.
  all: first [reflexivity | count_logs].
Qed.

(** X2 (health check, unhealthy).  When [get_model] fails with
    message [msg], the health route answers 500 with the detail
    ["Service unhealthy: "] followed by [msg], logs one ERROR and
    leaves the global [None]. *)
Theorem health_check_unhealthy {L : Lib} :
  forall (w : World) (msg : string),
    fst (models.get_model w) = inl (Exception msg) ->
    fst (app.get_health w)
    = {| app.status_code := 500;
         app.body := app.Detail ("Service unhealthy: " ++ msg) |}
    /\ _model_instance (snd (app.get_health w)) = None
    /\ errors (snd (app.get_health w)) = S (errors w).
Proof.
  intros [inst n tr] msg. run_py; intros Hm; settle.
  all: first [reflexivity | count_logs].
Qed.

Ltac name_matches :=
  match goal with
  | H : negb (?a =? ?b) = false |- _ =>
      apply negb_false_iff, String.eqb_eq in H
  end.

(** X5 (a successful generate).  Whenever the generate handler
    returns a response, the global holds an instance whose name is the
    requested model, the response carries the library's array for the
    request's text converted with [tolist], the requested model name
    and the instance's dimension, exactly one [encode] call was made,
    on that instance and with that text, and no ERROR was logged. *)
Theorem generate_embedding_200 {L : Lib} :
  forall (request : main.EmbeddingRequest.t) (w : World)
         (r : main.EmbeddingResponse.t),
    fst (main.generate_embedding request w) = inr r ->
    exists (m : EmbeddingModel) (a : list np_float32),
      _model_instance (snd (main.generate_embedding request w)) = Some m
      /\ main.EmbeddingRequest.model request = model_name m
      /\ encode_str (model m) (main.EmbeddingRequest.text request) = inr a
      /\ r = {| main.EmbeddingResponse.embedding := tolist a;
                main.EmbeddingResponse.model :=
                  main.EmbeddingRequest.model request;
                main.EmbeddingResponse.dimension := models.get_dimension m |}
      /\ app.encode_calls (snd (main.generate_embedding request w))
         = (app.encode_calls w
            ++ [CallEncode (oid m)
                  (OneText (main.EmbeddingRequest.text request))])%list
      /\ errors (snd (main.generate_embedding request w)) = errors w.
Proof.
  intros [text name] [inst n tr] r.
  run_py; intros H; try discriminate H.
  all: injection H as <-; name_matches; subst name.
  all: eexists; eexists; split; [reflexivity |].
  all: split; [reflexivity |].
  all: split; [eassumption |].
  all: split; [reflexivity |].
  all: split; count_logs.
Qed.

(** X6 (a successful batch).  Whenever the batch handler returns a
    response, it carries the library's rows converted one by one, the
    requested model name, the instance's dimension and a [count] that
    is the number of rows; the whole list of texts went to the library
    in one [encode] call on the global's instance, and no ERROR was
    logged. *)
Theorem generate_embeddings_batch_200 {L : Lib} :
  forall (request : main.BatchEmbeddingRequest.t) (w : World)
         (r : main.BatchEmbeddingResponse.t),
    fst (main.generate_embeddings_batch request w) = inr r ->
    exists (m : EmbeddingModel) (rows : list (list np_float32)),
      _model_instance (snd (main.generate_embeddings_batch request w))
      = Some m
      /\ main.BatchEmbeddingRequest.model request = model_name m
      /\ encode_list (model m) (main.BatchEmbeddingRequest.texts request)
         = inr rows
      /\ r = {| main.BatchEmbeddingResponse.embeddings := map tolist rows;
                main.BatchEmbeddingResponse.model :=
                  main.BatchEmbeddingRequest.model request;
                main.BatchEmbeddingResponse.dimension :=
                  models.get_dimension m;
                main.BatchEmbeddingResponse.count := len rows |}
      /\ app.encode_calls (snd (main.generate_embeddings_batch request w))
         = (app.encode_calls w
            ++ [CallEncode (oid m)
                  (ManyTexts (main.BatchEmbeddingRequest.texts request))])%list
      /\ errors (snd (main.generate_embeddings_batch request w)) = errors w.
Proof.
  intros [texts name] [inst n tr] r.
  run_py; intros H; try discriminate H.
  all: injection H as <-; name_matches; subst name.
  all: eexists; eexists; split; [reflexivity |].
  all: split; [reflexivity |].
  all: split; [eassumption |].
  all: split; [unfold len; rewrite length_map; reflexivity |].
  all: split; count_logs.
Qed.

(** X7 (errors in the log).  On each of the three routes, the log
    gains one ERROR record exactly when the answer has status 500;
    answers 200, 400 and 422 log no error. *)
Theorem error_logged_iff_500 {L : Lib} :
  forall (w : World),
    errors (snd (app.get_health w))
    = (if (app.status_code (fst (app.get_health w)) =? 500)%Z
       then S (errors w) else errors w)
    /\ (forall b : main.GenerateBody.t,
           errors (snd (app.post_generate b w))
           = if (app.status_code (fst (app.post_generate b w)) =? 500)%Z
             then S (errors w) else errors w)
    /\ (forall b : main.BatchBody.t,
           errors (snd (app.post_generate_batch b w))
           = if (app.status_code (fst (app.post_generate_batch b w)) =? 500)%Z
             then S (errors w) else errors w).
Proof.
  intros [inst n tr]. split; [| split].
  - run_py; cbn [Z.eqb Pos.eqb]; count_logs.
  - intros [text name]. run_py; cbn [Z.eqb Pos.eqb]; count_logs.
  - intros [texts name]. run_py; cbn [Z.eqb Pos.eqb]; count_logs.
Qed.

Ltac added_events :=
  first
    [ exists (@nil event); split; [symmetry; apply app_nil_r |]
    | rewrite <- ?app_assoc; cbn [List.app]; eexists;
      split; [reflexivity |] ].

Ltac each_event :=
  repeat (apply Forall_cons || apply Forall_nil); split; try reflexivity;
  unfold on_instance, nonempty_input; cbn.

Section Steps.
Context {L : Lib}.

Lemma text_nonempty (text : string) :
  (len_str text <? 1)%nat = false -> negb (text =? "") = true.
Proof. destruct text; [discriminate | reflexivity]. Qed.

Lemma texts_nonempty (texts : list string) :
  (len texts <? 1)%nat = false ->
  match texts with
  | [] => false
  | _ :: _ => true
  end = true.
Proof. destruct texts; [discriminate | reflexivity]. Qed.

(** An action appends to the trace, and what it appends is [fine] for
    the global it leaves. *)
Lemma step_events (a : app.action) (w : World) :
  exists evs,
    trace (app.step a w) = (trace w ++ evs)%list
    /\ Forall (fine (_model_instance (app.step a w))) evs.
Proof.
  destruct w as [inst n tr], a as [| | [text name] | [texts name] |].
  all: run_py; cbn [trace _model_instance]; added_events; each_event.
  all: first [ apply Nat.eqb_refl
             | apply text_nonempty; assumption
             | apply texts_nonempty; assumption ].
Qed.
End Steps.

Section Reachable.
Context {L : Lib}.

Lemma fine_None (g : option EmbeddingModel) (e : event) :
  fine None e -> fine g e.
Proof.
  unfold fine, on_instance. destruct e; try (intros H; exact H).
  intros [H _]. discriminate H.
Qed.

Lemma fine_extends (w w' : World) (e : event) :
  extends w w' ->
  fine (_model_instance w) e -> fine (_model_instance w') e.
Proof.
  intros [[Hsame _] | (Hnone & _)] H.
  - rewrite Hsame. exact H.
  - rewrite Hnone in H. apply fine_None. exact H.
Qed.

Lemma run_fine (actions : list app.action) :
  forall w,
    Forall (fine (_model_instance w)) (trace w) ->
    Forall (fine (_model_instance (app.run actions w)))
      (trace (app.run actions w)).
Proof.
  induction actions as [| a rest IH]; intros w Hw; cbn [app.run].
  - exact Hw.
  - apply IH.
    destruct (step_events a w) as (evs & Htrace & Hevs).
    rewrite Htrace. apply Forall_app. split; [| exact Hevs].
    apply Forall_impl with (2 := Hw).
    intros e. apply fine_extends. apply step_extends.
Qed.

Lemma reachable_fine (actions : list app.action) :
  Forall (fine (_model_instance (app.run actions initial)))
    (trace (app.run actions initial)).
Proof. apply run_fine. constructor. Qed.
End Reachable.

(** X8 (one model for all encoding).  In a process that has run any
    actions, every [encode] call in the trace was made on the instance
    the global holds. *)
Theorem encode_only_on_singleton {L : Lib} :
  forall (actions : list app.action) (id : nat) (input : sentences),
    In (CallEncode id input) (trace (app.run actions initial)) ->
    exists m,
      _model_instance (app.run actions initial) = Some m /\ oid m = id.
Proof.
  intros actions id input Hin.
  pose proof (reachable_fine actions) as Hall.
  rewrite Forall_forall in Hall.
  destruct (Hall _ Hin) as [Hon _]. unfold on_instance in Hon.
  destruct (_model_instance (app.run actions initial)) as [m |];
    [| discriminate Hon].
  exists m. split; [reflexivity |]. apply Nat.eqb_eq. exact Hon.
Qed.

Lemma encode_only_on_singleton_witness :
  exists m,
    _model_instance
      (app.run (L := Toy.lib)
         [app.POST_generate
            {| main.GenerateBody.text := Some "hi";
               main.GenerateBody.model := None |}]
         initial)
    = Some m
    /\ oid m = 0%nat.
Proof.
  apply (encode_only_on_singleton (L := Toy.lib)
           [app.POST_generate
              {| main.GenerateBody.text := Some "hi";
                 main.GenerateBody.model := None |}]
           0%nat (OneText "hi")).
  vm_compute. tauto.
Defined.

(** X9 (nothing empty reaches the model).  In a process that has run
    any actions, the library's [encode] has never been called with the
    empty string as the single text, nor with the empty list of
    texts. *)
Theorem encode_input_never_empty {L : Lib} :
  forall (actions : list app.action) (id : nat),
    ~ In (CallEncode id (OneText "")) (trace (app.run actions initial))
    /\ ~ In (CallEncode id (ManyTexts [])) (trace (app.run actions initial)).
Proof.
  intros actions id.
  pose proof (reachable_fine actions) as Hall.
  rewrite Forall_forall in Hall.
  split; intros Hin; destruct (Hall _ Hin) as [_ Hne]; discriminate Hne.
Qed.

(** Symbolic execution that also projects the fields of an instance
    as soon as it is known. *)
Ltac run_fields :=
  unfold_py; cbn [oid device model];
  repeat (case_step; unfold_py; cbn [oid device model]).

Section Loaded.
Context {L : Lib}.

(** How an action may change the global and the allocation counter:
    with an instance in place nothing is loaded and nothing
    allocated; without one, the instance that appears is the one
    [__init__] builds at the next identity. *)
Lemma step_instance (a : app.action) (w : World) :
  (_model_instance (app.step a w) = _model_instance w
   /\ (next_oid w <= next_oid (app.step a w))%nat
   /\ (_model_instance w <> None ->
       next_oid (app.step a w) = next_oid w
       /\ loads (app.step a w) = loads w))
  \/ (_model_instance w = None
      /\ next_oid (app.step a w) = S (next_oid w)
      /\ exists m,
           _model_instance (app.step a w) = Some m
           /\ as_constructed m
           /\ oid m = next_oid w).
Proof.
  destruct w as [inst n tr], a as [| | [text name] | [texts name] |].
  all: unfold as_constructed; cbn [_model_instance next_oid].
  all: destruct inst as [[id mname dev st] |].
  all: run_fields.
  all: first
         [ left; split; [reflexivity |];
           split; [cbn [next_oid]; lia |];
           intros Hsome; first [ split; [reflexivity | count_logs]
                               | exfalso; apply Hsome; reflexivity ]
         | right; split; [reflexivity |]; split; [reflexivity |];
           eexists; split; [reflexivity |]; cbn [oid device model model_name];
           try match goal with
               | H : cuda_is_available _ = _ |- _ => rewrite H
               end;
           repeat split; first [reflexivity | assumption] ].
Qed.

Lemma run_loaded_ok (actions : list app.action) :
  forall w, loaded_ok w -> loaded_ok (app.run actions w).
Proof.
  induction actions as [| a rest IH]; intros w Hw; cbn [app.run].
  - exact Hw.
  - apply IH. unfold loaded_ok in *.
    destruct (step_instance a w)
      as [(Hsame & Hle & _) | (Hnone & Hnext & m & Hsome & Hm & Hid)].
    + rewrite Hsame. destruct (_model_instance w); [| exact I].
      split; [exact (proj1 Hw) | destruct Hw as [_ Hlt]; lia].
    + rewrite Hsome. split; [exact Hm | lia].
Qed.

Lemma run_loads_kept (actions : list app.action) :
  forall w,
    _model_instance w <> None ->
    loads (app.run actions w) = loads w
    /\ next_oid (app.run actions w) = next_oid w.
Proof.
  induction actions as [| a rest IH]; intros w Hw; cbn [app.run].
  - split; reflexivity.
  - destruct (step_instance a w)
      as [(Hsame & _ & Hkept) | (Hnone & _)]; [| contradiction].
    destruct (Hkept Hw) as [Hnext Hloads].
    destruct (IH (app.step a w)) as [H1 H2].
    + rewrite Hsame. exact Hw.
    + split; congruence.
Qed.

(** With the instance in place a health check touches nothing, not
    even the log. *)
Lemma get_health_loaded (w : World) (m : EmbeddingModel) :
  _model_instance w = Some m ->
  app.get_health w
  = ({| app.status_code := 200;
        app.body :=
          app.Health
            {| main.HealthResponse.status := "healthy";
               main.HealthResponse.model := model_name m;
               main.HealthResponse.device := device m;
               main.HealthResponse.dimension := models.get_dimension m |} |},
     w).
Proof.
  destruct w as [inst n tr]. cbn [_model_instance]. intros ->.
  run_py. reflexivity.
Qed.
End Loaded.

(** X3 (startup failure).  When loading fails with message [msg],
    [startup_event] logs one ERROR and raises the library's exception
    again as it is (not an [HTTPException]); the global stays
    [None]. *)
Theorem startup_failure_reraised {L : Lib} :
  forall (w : World) (msg : string),
    fst (models.get_model w) = inl (Exception msg) ->
    fst (main.startup_event w) = inl (Exception msg)
    /\ _model_instance (snd (main.startup_event w)) = None
    /\ errors (snd (main.startup_event w)) = S (errors w).
Proof.
  intros [inst n tr] msg. run_py; intros Hm; settle.
  all: first [reflexivity | count_logs].
Qed.

Lemma startup_event_loads {L : Lib} (w : World) :
  fst (main.startup_event w) = inr tt ->
  _model_instance (snd (main.startup_event w)) <> None.
Proof.
  destruct w as [inst n tr]. run_py; intros H; try discriminate H.
  all: discriminate.
Qed.

(** X4 (after a successful startup).  Once [startup_event] has
    returned, after any further actions a health check answers 200 and
    changes nothing, and the library is never asked to load a model
    again. *)
Theorem startup_then_healthy {L : Lib} :
  forall (w : World) (later : list app.action),
    fst (main.startup_event w) = inr tt ->
    app.status_code
      (fst (app.get_health (app.run later (snd (main.startup_event w)))))
    = 200%Z
    /\ snd (app.get_health (app.run later (snd (main.startup_event w))))
       = app.run later (snd (main.startup_event w))
    /\ loads (app.run later (snd (main.startup_event w)))
       = loads (snd (main.startup_event w)).
Proof.
  intros w later Hok.
  pose proof (startup_event_loads w Hok) as Hset.
  destruct (_model_instance (snd (main.startup_event w))) as [m |] eqn:Hm;
    [| contradiction].
  pose proof (run_keeps later m _ Hm) as Hkept.
  rewrite (get_health_loaded _ m Hkept). cbn [fst snd app.status_code].
  split; [reflexivity | split; [reflexivity |]].
  apply run_loads_kept. rewrite Hm. discriminate.
Qed.

(** X10 (a failed load is not remembered).  When [get_model] fails,
    the global stays [None]: one load was attempted, no construction
    completed, and the next [get_model] asks the library again; if
    that load succeeds, it returns a new instance of the default
    model. *)
Theorem load_failure_retried {L : Lib} :
  forall (w : World) (msg : string),
    fst (models.get_model w) = inl (Exception msg) ->
    _model_instance (snd (models.get_model w)) = None
    /\ next_oid (snd (models.get_model w)) = S (next_oid w)
    /\ loads (snd (models.get_model w)) = S (loads w)
    /\ app.created (snd (models.get_model w)) = app.created w
    /\ forall st,
         load (S (next_oid w)) "all-MiniLM-L6-v2"
           (if cuda_is_available (S (next_oid w)) then "cuda" else "cpu")
         = inr st ->
         fst (models.get_model (snd (models.get_model w)))
         = inr {| oid := S (next_oid w);
                  model_name := "all-MiniLM-L6-v2";
                  device :=
                    if cuda_is_available (S (next_oid w))
                    then "cuda" else "cpu";
                  model := st |}.
Proof.
  intros [inst n tr] msg. cbn [next_oid]. run_py; intros Hm; settle.
  all: try first [reflexivity | count_logs].
  all: try discriminate.
  all: try congruence.
Qed.

(** Under the library's contract every row of a batch has the model's
    dimension. *)
Lemma encode_list_row_shape {L : Lib} :
  encode_str_shape -> encode_list_shape -> encode_list_rows ->
  forall st texts rows,
    encode_list st texts = inr rows ->
    Forall (fun a => Z.of_nat (len a) = get_sentence_embedding_dimension st)
      rows.
Proof.
  intros Hstr Hshape Hrows st texts rows Henc.
  apply Forall_forall. intros a Hin.
  destruct (In_nth_error _ _ Hin) as [i Hi].
  assert (Hlt : (i < List.length texts)%nat).
  { rewrite <- (Hshape _ _ _ Henc : List.length rows = List.length texts).
    apply nth_error_Some. rewrite Hi. discriminate. }
  destruct (nth_error texts i) as [text |] eqn:Ht.
  - destruct (Hrows _ _ _ Henc i text Ht) as (a' & Ha' & Hone).
    assert (a' = a) by congruence. subst a'.
    exact (Hstr _ _ _ Hone).
  - apply nth_error_None in Ht. lia.
Qed.

(** X11 (the response agrees with itself).  Under the library's
    shape contract, in every response of the generate handler the
    embedding has [dimension] entries, and in every response of the
    batch handler [count] is the number of texts sent and of
    embeddings returned, each of which has [dimension] entries. *)
Theorem response_dimension_consistent {L : Lib} :
  encode_str_shape -> encode_list_shape -> encode_list_rows ->
  forall (w : World),
    (forall (request : main.EmbeddingRequest.t)
            (r : main.EmbeddingResponse.t),
        fst (main.generate_embedding request w) = inr r ->
        Z.of_nat (len (main.EmbeddingResponse.embedding r))
        = main.EmbeddingResponse.dimension r)
    /\ (forall (request : main.BatchEmbeddingRequest.t)
               (r : main.BatchEmbeddingResponse.t),
           fst (main.generate_embeddings_batch request w) = inr r ->
           main.BatchEmbeddingResponse.count r
           = len (main.BatchEmbeddingRequest.texts request)
           /\ main.BatchEmbeddingResponse.count r
              = len (main.BatchEmbeddingResponse.embeddings r)
           /\ Forall
                (fun emb =>
                   Z.of_nat (len emb)
                   = main.BatchEmbeddingResponse.dimension r)
                (main.BatchEmbeddingResponse.embeddings r)).
Proof.
  intros Hstr Hshape Hrows [inst n tr]. split.
  - intros [text name] r. run_py; intros H; try discriminate H.
    all: injection H as <-; cbn [main.EmbeddingResponse.embedding
                                   main.EmbeddingResponse.dimension].
    all: rewrite tolist_length; unfold models.get_dimension.
    all: match goal with
         | He : encode_str _ _ = inr _ |- _ => exact (Hstr _ _ _ He)
         end.
  - intros [texts name] r. run_py; intros H; try discriminate H.
    all: injection H as <-; cbn [main.BatchEmbeddingResponse.embeddings
                                   main.BatchEmbeddingResponse.dimension
                                   main.BatchEmbeddingResponse.count].
    all: match goal with
         | He : encode_list _ _ = inr ?rows |- _ =>
             pose proof (Hshape _ _ _ He) as Hlen;
             pose proof (encode_list_row_shape Hstr Hshape Hrows _ _ _ He)
               as Hall
         end.
    all: unfold len in *; rewrite length_map.
    all: split; [exact Hlen | split; [reflexivity |]].
    all: apply Forall_map; apply Forall_impl with (2 := Hall).
    all: intros a Ha; unfold tolist; rewrite length_map; exact Ha.
Qed.

(** X13 (at most one inference per request).  Startup, a health
    check and [get_model] never call [encode]; a generate request adds
    no [encode] call or one call with the body's text; a batch request
    adds none or one call with the body's whole list. *)
Theorem one_encode_per_request {L : Lib} :
  forall (w : World),
    app.encode_calls (app.step app.Startup w) = app.encode_calls w
    /\ app.encode_calls (app.step app.GET_health w) = app.encode_calls w
    /\ app.encode_calls (app.step app.Call_get_model w) = app.encode_calls w
    /\ (forall b : main.GenerateBody.t,
           app.encode_calls (app.step (app.POST_generate b) w)
           = app.encode_calls w
           \/ exists id text,
                main.GenerateBody.text b = Some text
                /\ app.encode_calls (app.step (app.POST_generate b) w)
                   = (app.encode_calls w
                      ++ [CallEncode id (OneText text)])%list)
    /\ (forall b : main.BatchBody.t,
           app.encode_calls (app.step (app.POST_generate_batch b) w)
           = app.encode_calls w
           \/ exists id texts,
                main.BatchBody.texts b = Some texts
                /\ app.encode_calls (app.step (app.POST_generate_batch b) w)
                   = (app.encode_calls w
                      ++ [CallEncode id (ManyTexts texts)])%list).
Proof.
  intros [inst n tr]. repeat split.
  - run_py; count_logs.
  - run_py; count_logs.
  - run_py; count_logs.
  - intros [text name]. run_py.
    all: first [ left; count_logs
               | right; eexists; eexists; split; [reflexivity | count_logs] ].
  - intros [texts name]. run_py.
    all: first [ left; count_logs
               | right; eexists; eexists; split; [reflexivity | count_logs] ].
Qed.

Lemma answers_of_default_model {L : Lib} (w : World) :
  singleton w -> loaded_ok w ->
  (forall h : main.HealthResponse.t,
      app.body (fst (app.get_health w)) = app.Health h ->
      main.HealthResponse.status h = "healthy"
      /\ main.HealthResponse.model h = "all-MiniLM-L6-v2"
      /\ (main.HealthResponse.device h = "cuda"
          \/ main.HealthResponse.device h = "cpu"))
  /\ (forall (b : main.GenerateBody.t) (r : main.EmbeddingResponse.t),
         app.body (fst (app.post_generate b w)) = app.Embedding r ->
         main.EmbeddingResponse.model r = "all-MiniLM-L6-v2")
  /\ (forall (b : main.BatchBody.t) (r : main.BatchEmbeddingResponse.t),
         app.body (fst (app.post_generate_batch b w)) = app.BatchEmbedding r ->
         main.BatchEmbeddingResponse.model r = "all-MiniLM-L6-v2").
Proof.
  destruct w as [inst n tr]. unfold singleton, loaded_ok, as_constructed.
  cbn [_model_instance]. destruct inst as [[id mname dev st] |];
    cbn [model_name device oid]; intros Hs Hl.
  - destruct Hs as [_ ->]. destruct Hl as [(_ & Hdev & _) _].
    destruct (cuda_is_available id); subst dev.
    all: split; [| split].
    all: try (intros h; run_py; intros [= <-]; cbn; auto).
    all: try (intros [text name] r; run_py; intros H; try discriminate H;
              injection H as <-; reflexivity).
  - clear Hs Hl. split; [| split].
    + intros h; run_py; intros H; try discriminate H.
      all: injection H as <-; cbn; auto.
    + intros [text name] r; run_py; intros H; try discriminate H.
      all: injection H as <-; reflexivity.
    + intros [text name] r; run_py; intros H; try discriminate H.
      all: injection H as <-; reflexivity.
Qed.

(** X12 (the model the answers name).  In a process that has run any
    actions, a health response reports status "healthy", model
    ["all-MiniLM-L6-v2"] and device ["cuda"] or ["cpu"], and every
    response of the two generate routes names model
    ["all-MiniLM-L6-v2"]. *)
Theorem answers_name_default_model {L : Lib} :
  forall (actions : list app.action),
    (forall h : main.HealthResponse.t,
        app.body (fst (app.get_health (app.run actions initial)))
        = app.Health h ->
        main.HealthResponse.status h = "healthy"
        /\ main.HealthResponse.model h = "all-MiniLM-L6-v2"
        /\ (main.HealthResponse.device h = "cuda"
            \/ main.HealthResponse.device h = "cpu"))
    /\ (forall (b : main.GenerateBody.t) (r : main.EmbeddingResponse.t),
           app.body (fst (app.post_generate b (app.run actions initial)))
           = app.Embedding r ->
           main.EmbeddingResponse.model r = "all-MiniLM-L6-v2")
    /\ (forall (b : main.BatchBody.t) (r : main.BatchEmbeddingResponse.t),
           app.body
             (fst (app.post_generate_batch b (app.run actions initial)))
           = app.BatchEmbedding r ->
           main.BatchEmbeddingResponse.model r = "all-MiniLM-L6-v2").
Proof.
  intros actions. apply answers_of_default_model.
  - apply run_singleton. exact singleton_initial.
  - apply run_loaded_ok. exact I.
Qed.

Lemma health_check_healthy_witness :
  fst (app.get_health (L := Toy.lib) initial)
  = {| app.status_code := 200;
       app.body :=
         app.Health
           {| main.HealthResponse.status := "healthy";
              main.HealthResponse.model := "all-MiniLM-L6-v2";
              main.HealthResponse.device := "cpu";
              main.HealthResponse.dimension := 384 |} |}
  /\ _model_instance (snd (app.get_health (L := Toy.lib) initial))
     = Some Toy.instance
  /\ app.encode_calls (snd (app.get_health (L := Toy.lib) initial))
     = app.encode_calls (initial (L := Toy.lib))
  /\ errors (snd (app.get_health (L := Toy.lib) initial)) = errors (initial (L := Toy.lib)).
Proof.
  apply (health_check_healthy (L := Toy.lib) initial Toy.instance).
  reflexivity.
Defined.

Lemma health_check_unhealthy_witness :
  fst (app.get_health (L := Flaky.lib) initial)
  = {| app.status_code := 500;
       app.body := app.Detail "Service unhealthy: Connection error" |}
  /\ _model_instance (snd (app.get_health (L := Flaky.lib) initial)) = None
  /\ errors (snd (app.get_health (L := Flaky.lib) initial)) = 1%nat.
Proof.
  apply (health_check_unhealthy (L := Flaky.lib) initial "Connection error").
  reflexivity.
Defined.

Lemma startup_failure_reraised_witness :
  fst (main.startup_event (L := Flaky.lib) initial)
  = inl (Exception "Connection error")
  /\ _model_instance (snd (main.startup_event (L := Flaky.lib) initial))
     = None
  /\ errors (snd (main.startup_event (L := Flaky.lib) initial)) = 1%nat.
Proof.
  apply (startup_failure_reraised (L := Flaky.lib) initial
           "Connection error").
  reflexivity.
Defined.

Lemma startup_then_healthy_witness :
  app.status_code
    (fst (app.get_health
            (app.run
               [app.POST_generate
                  {| main.GenerateBody.text := Some "boom";
                     main.GenerateBody.model := None |};
                app.Call_get_model]
               (snd (main.startup_event (L := Toy.lib) initial)))))
  = 200%Z
  /\ snd (app.get_health
            (app.run
               [app.POST_generate
                  {| main.GenerateBody.text := Some "boom";
                     main.GenerateBody.model := None |};
                app.Call_get_model]
               (snd (main.startup_event (L := Toy.lib) initial))))
     = app.run
         [app.POST_generate
            {| main.GenerateBody.text := Some "boom";
               main.GenerateBody.model := None |};
          app.Call_get_model]
         (snd (main.startup_event (L := Toy.lib) initial))
  /\ loads
       (app.run
          [app.POST_generate
             {| main.GenerateBody.text := Some "boom";
                main.GenerateBody.model := None |};
           app.Call_get_model]
          (snd (main.startup_event (L := Toy.lib) initial)))
     = loads (snd (main.startup_event (L := Toy.lib) initial)).
Proof.
  apply (startup_then_healthy (L := Toy.lib) initial
           [app.POST_generate
              {| main.GenerateBody.text := Some "boom";
                 main.GenerateBody.model := None |};
            app.Call_get_model]).
  reflexivity.
Defined.

Lemma generate_embedding_200_witness :
  exists (m : EmbeddingModel (L := Toy.lib))
         (a : list (@np_float32 Toy.lib)),
    _model_instance
      (snd (main.generate_embedding
              {| main.EmbeddingRequest.text := "hello";
                 main.EmbeddingRequest.model := "all-MiniLM-L6-v2" |}
              Toy.serving))
    = Some m
    /\ "all-MiniLM-L6-v2" = model_name m
    /\ encode_str (Lib := Toy.lib) (model m) "hello" = inr a
    /\ {| main.EmbeddingResponse.embedding :=
            tolist (L := Toy.lib) (repeat 5%Z 384);
          main.EmbeddingResponse.model := "all-MiniLM-L6-v2";
          main.EmbeddingResponse.dimension := 384 |}
       = {| main.EmbeddingResponse.embedding := tolist (L := Toy.lib) a;
            main.EmbeddingResponse.model := "all-MiniLM-L6-v2";
            main.EmbeddingResponse.dimension := models.get_dimension m |}
    /\ app.encode_calls
         (snd (main.generate_embedding
                 {| main.EmbeddingRequest.text := "hello";
                    main.EmbeddingRequest.model := "all-MiniLM-L6-v2" |}
                 Toy.serving))
       = (app.encode_calls Toy.serving
          ++ [CallEncode (oid m) (OneText "hello")])%list
    /\ errors
         (snd (main.generate_embedding
                 {| main.EmbeddingRequest.text := "hello";
                    main.EmbeddingRequest.model := "all-MiniLM-L6-v2" |}
                 Toy.serving))
       = errors Toy.serving.
Proof.
  apply (generate_embedding_200 (L := Toy.lib)
           {| main.EmbeddingRequest.text := "hello";
              main.EmbeddingRequest.model := "all-MiniLM-L6-v2" |}
           Toy.serving
           {| main.EmbeddingResponse.embedding :=
                tolist (L := Toy.lib) (repeat 5%Z 384);
              main.EmbeddingResponse.model := "all-MiniLM-L6-v2";
              main.EmbeddingResponse.dimension := 384 |}).
  reflexivity.
Defined.

Lemma generate_embeddings_batch_200_witness :
  exists (m : EmbeddingModel (L := Toy.lib))
         (rows : list (list (@np_float32 Toy.lib))),
    _model_instance
      (snd (main.generate_embeddings_batch
              {| main.BatchEmbeddingRequest.texts := ["hi"; ""];
                 main.BatchEmbeddingRequest.model := "all-MiniLM-L6-v2" |}
              Toy.serving))
    = Some m
    /\ "all-MiniLM-L6-v2" = model_name m
    /\ encode_list (Lib := Toy.lib) (model m) ["hi"; ""] = inr rows
    /\ {| main.BatchEmbeddingResponse.embeddings :=
            [tolist (L := Toy.lib) (repeat 2%Z 384); repeat 0%Z 384];
          main.BatchEmbeddingResponse.model := "all-MiniLM-L6-v2";
          main.BatchEmbeddingResponse.dimension := 384;
          main.BatchEmbeddingResponse.count := 2 |}
       = {| main.BatchEmbeddingResponse.embeddings :=
              map (tolist (L := Toy.lib)) rows;
            main.BatchEmbeddingResponse.model := "all-MiniLM-L6-v2";
            main.BatchEmbeddingResponse.dimension := models.get_dimension m;
            main.BatchEmbeddingResponse.count := len rows |}
    /\ app.encode_calls
         (snd (main.generate_embeddings_batch
                 {| main.BatchEmbeddingRequest.texts := ["hi"; ""];
                    main.BatchEmbeddingRequest.model := "all-MiniLM-L6-v2" |}
                 Toy.serving))
       = (app.encode_calls Toy.serving
          ++ [CallEncode (oid m) (ManyTexts ["hi"; ""])])%list
    /\ errors
         (snd (main.generate_embeddings_batch
                 {| main.BatchEmbeddingRequest.texts := ["hi"; ""];
                    main.BatchEmbeddingRequest.model := "all-MiniLM-L6-v2" |}
                 Toy.serving))
       = errors Toy.serving.
Proof.
  apply (generate_embeddings_batch_200 (L := Toy.lib)
           {| main.BatchEmbeddingRequest.texts := ["hi"; ""];
              main.BatchEmbeddingRequest.model := "all-MiniLM-L6-v2" |}
           Toy.serving
           {| main.BatchEmbeddingResponse.embeddings :=
                [tolist (L := Toy.lib) (repeat 2%Z 384); repeat 0%Z 384];
              main.BatchEmbeddingResponse.model := "all-MiniLM-L6-v2";
              main.BatchEmbeddingResponse.dimension := 384;
              main.BatchEmbeddingResponse.count := 2 |}).
  reflexivity.
Defined.

Lemma load_failure_retried_witness :
  _model_instance (snd (models.get_model (L := Flaky.lib) initial)) = None
  /\ next_oid (snd (models.get_model (L := Flaky.lib) initial)) = 1%nat
  /\ loads (snd (models.get_model (L := Flaky.lib) initial)) = 1%nat
  /\ app.created (snd (models.get_model (L := Flaky.lib) initial)) = 0%nat
  /\ forall st : @SentenceTransformer Flaky.lib,
       load (Lib := Flaky.lib) 1 "all-MiniLM-L6-v2" "cuda" = inr st ->
       fst (models.get_model (snd (models.get_model (L := Flaky.lib) initial)))
       = inr {| oid := 1;
                model_name := "all-MiniLM-L6-v2";
                device := "cuda";
                model := st |}.
Proof.
  apply (load_failure_retried (L := Flaky.lib) initial "Connection error").
  reflexivity.
Defined.

Lemma response_dimension_consistent_witness :
  (forall (request : main.EmbeddingRequest.t)
          (r : main.EmbeddingResponse.t (L := Toy.lib)),
      fst (main.generate_embedding request Toy.serving) = inr r ->
      Z.of_nat (len (main.EmbeddingResponse.embedding r))
      = main.EmbeddingResponse.dimension r)
  /\ (forall (request : main.BatchEmbeddingRequest.t)
             (r : main.BatchEmbeddingResponse.t (L := Toy.lib)),
         fst (main.generate_embeddings_batch request Toy.serving) = inr r ->
         main.BatchEmbeddingResponse.count r
         = len (main.BatchEmbeddingRequest.texts request)
         /\ main.BatchEmbeddingResponse.count r
            = len (main.BatchEmbeddingResponse.embeddings r)
         /\ Forall
              (fun emb =>
                 Z.of_nat (len emb)
                 = main.BatchEmbeddingResponse.dimension r)
              (main.BatchEmbeddingResponse.embeddings r)).
Proof.
  apply (response_dimension_consistent (L := Toy.lib)
           Toy_encode_str_shape Toy_encode_list_shape Toy_encode_list_rows
           Toy.serving).
Defined.

(** ** The wrapper on the model of the specification *)

(** The model of the specification keeps the contract. *)
Lemma spec_encode_str_shape (P : Spec.Pretrained) :
  encode_str_shape (L := Spec.lib P).
Proof.
  intros st text a H. cbn in H. injection H as <-. cbn.
  unfold len, Spec.encodeOne. rewrite length_map, length_seq. reflexivity.
Qed.

Lemma spec_MiniLM_dimension (P : Spec.Pretrained) :
  MiniLM_dimension (L := Spec.lib P).
Proof.
  intros n device st H. cbn in H. unfold Spec.initialize in H.
  destruct (Spec.load_failure P n "all-MiniLM-L6-v2" device);
    [discriminate H |].
  injection H as <-. reflexivity.
Qed.

Lemma spec_encode_list_rows (P : Spec.Pretrained) :
  encode_list_rows (L := Spec.lib P).
Proof.
  intros st texts rows H i text Hi. cbn in H. injection H as <-.
  exists (Spec.encodeOne P st text). split; [| reflexivity].
  unfold Spec.encodeMany. rewrite nth_error_map, Hi. reflexivity.
Qed.

Lemma spec_encode_list_shape (P : Spec.Pretrained) :
  encode_list_shape (L := Spec.lib P).
Proof.
  intros st texts rows H. cbn in H. injection H as <-.
  unfold len, Spec.encodeMany. apply length_map.
Qed.

Lemma spec_encode_list_empty (P : Spec.Pretrained) :
  encode_list_empty (L := Spec.lib P).
Proof. intros st. reflexivity. Qed.

(** The instance [get_model] returns in a process that has kept its
    global as the constructor left it is such an instance. *)
Lemma get_model_as_constructed {L : Lib} (w : World) (m : EmbeddingModel) :
  loaded_ok w -> fst (models.get_model w) = inr m -> as_constructed m.
Proof.
  intros Hw Hm.
  pose proof (run_loaded_ok [app.Call_get_model] w Hw) as Hafter.
  cbn [app.run app.step] in Hafter.
  destruct (get_model_extends w) as (_ & _ & Hset).
  unfold loaded_ok in Hafter. rewrite (Hset m Hm) in Hafter.
  exact (proj1 Hafter).
Qed.

(** C3 (dimension postcondition).  On the model of the specification,
    for every non-empty text [generate_embedding] returns the list of
    the model's vector, and its length is [get_dimension()].  For an
    instance that the constructor built with the default name that
    dimension is 384, and so it is for the instance [get_model]
    returns in a process that has run any actions. *)
Theorem spec_generate_embedding_dimension :
  forall (P : Spec.Pretrained) (self : EmbeddingModel (L := Spec.lib P))
         (text : string) (w : World),
    text <> "" ->
    fst (models.generate_embedding self text w)
    = inr (tolist (L := Spec.lib P) (Spec.encodeOne P (model self) text))
    /\ Z.of_nat
         (len (tolist (L := Spec.lib P)
                 (Spec.encodeOne P (model self) text)))
       = models.get_dimension self
    /\ (forall w0 w1,
           models.new_EmbeddingModel None w0 = (inr self, w1) ->
           models.get_dimension self = 384%Z)
    /\ (forall actions,
           fst (models.get_model (app.run actions initial)) = inr self ->
           models.get_dimension self = 384%Z).
Proof.
  intros P self text w Htext.
  destruct (generate_embedding_dimension (L := Spec.lib P)
              (spec_encode_str_shape P) (spec_MiniLM_dimension P)
              self text (Spec.encodeOne P (model self) text) w Htext
              eq_refl)
    as (Hrun & Hlen & Hnew).
  split; [exact Hrun | split; [exact Hlen | split; [exact Hnew |]]].
  intros actions Hget.
  assert (Hm : as_constructed self).
  { apply get_model_as_constructed with (w := app.run actions initial);
      [| exact Hget].
    apply run_loaded_ok. exact I. }
  destruct Hm as (Hname & _ & Hload). rewrite Hname in Hload.
  exact (spec_MiniLM_dimension P _ _ _ Hload).
Qed.

Lemma spec_generate_embedding_dimension_witness :
  fst (models.generate_embedding Spec.instance "This is a test sentence."
         initial)
  = inr (tolist (L := Spec.lib Spec.sample)
           (Spec.encodeOne Spec.sample (model Spec.instance)
              "This is a test sentence."))
  /\ Z.of_nat
       (len (tolist (L := Spec.lib Spec.sample)
               (Spec.encodeOne Spec.sample (model Spec.instance)
                  "This is a test sentence.")))
     = models.get_dimension Spec.instance
  /\ (forall w0 w1,
         models.new_EmbeddingModel None w0 = (inr Spec.instance, w1) ->
         models.get_dimension Spec.instance = 384%Z)
  /\ (forall actions,
         fst (models.get_model (app.run actions initial))
         = inr Spec.instance ->
         models.get_dimension Spec.instance = 384%Z).
Proof.
  apply (spec_generate_embedding_dimension Spec.sample Spec.instance
           "This is a test sentence." initial).
  discriminate.
Defined.

(** On the sample, the constructor builds [Spec.instance], and a
    vector has 384 entries. *)
Example spec_sample_instance :
  fst (models.get_model (L := Spec.lib Spec.sample) initial)
  = inr Spec.instance
  /\ match fst (models.generate_embedding Spec.instance "" initial) with
     | inr embedding => len embedding = 384%nat
     | inl _ => False
     end.
Proof. split; reflexivity. Qed.

(** C8 (empty string at the model layer).  On the model of the
    specification, [generate_embedding("")] hands the empty string to
    the library without a check of its own (the trace gains the call
    with the empty text) and returns the list of the model's vector
    for it, of length [get_dimension()].  The HTTP layer answers a
    body with an empty [text] with 422 and leaves the process as it
    was. *)
Theorem spec_generate_embedding_empty_text :
  forall (P : Spec.Pretrained) (self : EmbeddingModel (L := Spec.lib P))
         (w : World),
    models.generate_embedding self "" w
    = (inr (tolist (L := Spec.lib P) (Spec.encodeOne P (model self) "")),
       emit (CallEncode (oid self) (OneText "")) w)
    /\ Z.of_nat
         (len (tolist (L := Spec.lib P) (Spec.encodeOne P (model self) "")))
       = models.get_dimension self
    /\ (forall name w',
           app.post_generate (L := Spec.lib P)
             {| main.GenerateBody.text := Some "";
                main.GenerateBody.model := name |} w'
           = (app.unprocessable, w')).
Proof.
  intros P self w.
  apply (generate_embedding_empty_text (L := Spec.lib P)
           (spec_encode_str_shape P) self
           (Spec.encodeOne P (model self) "") w).
  reflexivity.
Qed.

(** C4 (batch length).  On the model of the specification,
    [generate_embeddings_batch(ts)] returns, in the order of [ts], the
    list of the model's vector of each text: one list per input.  For
    the empty list it returns the empty list and raises nothing. *)
Theorem spec_generate_embeddings_batch_length :
  forall (P : Spec.Pretrained) (self : EmbeddingModel (L := Spec.lib P))
         (ts : list string) (w : World),
    fst (models.generate_embeddings_batch self ts w)
    = inr (map (fun t =>
                  tolist (L := Spec.lib P) (Spec.encodeOne P (model self) t))
             ts)
    /\ len (map (fun t =>
                   tolist (L := Spec.lib P)
                     (Spec.encodeOne P (model self) t))
              ts)
       = len ts
    /\ fst (models.generate_embeddings_batch self [] w) = inr [].
Proof.
  intros P self ts w.
  rewrite !generate_embeddings_batch_run. cbn [fst encode_list Spec.lib].
  unfold Spec.encodeMany. rewrite map_map.
  split; [reflexivity | split; [| reflexivity]].
  unfold len. apply length_map.
Qed.

(** C1 (batch and single path agree).  On the model of the
    specification, for every list of texts [ts] and every valid index
    [i], the batch method returns a list whose entry [i] is the list
    the single-text method returns for [ts[i]]. *)
Theorem spec_batch_single_consistency :
  forall (P : Spec.Pretrained) (self : EmbeddingModel (L := Spec.lib P))
         (ts : list string) (w : World) (i : nat) (t : string),
    nth_error ts i = Some t ->
    exists vs v,
      fst (models.generate_embeddings_batch self ts w) = inr vs
      /\ nth_error vs i = Some v
      /\ forall w', fst (models.generate_embedding self t w') = inr v.
Proof.
  intros P self ts w i t Hi.
  destruct (models.generate_embeddings_batch self ts w) as [r w1] eqn:Hrun.
  assert (Hok : exists vs, r = inr vs).
  { rewrite generate_embeddings_batch_run in Hrun.
    cbn [encode_list Spec.lib] in Hrun. injection Hrun as <- _. eauto. }
  destruct Hok as [vs ->].
  destruct (batch_single_consistency (L := Spec.lib P)
              (spec_encode_list_rows P) self ts vs w w1 Hrun i t Hi)
    as (v & Hv & Hone).
  exists vs, v. cbn [fst]. auto.
Qed.

Lemma spec_batch_single_consistency_witness :
  exists vs v,
    fst (models.generate_embeddings_batch Spec.instance
           ["First sentence."; "Second sentence."; "Third sentence."]
           initial)
    = inr vs
    /\ nth_error vs 1 = Some v
    /\ forall w',
         fst (models.generate_embedding Spec.instance "Second sentence." w')
         = inr v.
Proof.
  apply (spec_batch_single_consistency Spec.sample Spec.instance
           ["First sentence."; "Second sentence."; "Third sentence."]
           initial 1%nat "Second sentence.").
  reflexivity.
Defined.
